(** * fraud_eda.py: the credit-card fraud EDA script, embedded in Rocq

    The script is a linear sequence of notebook cells over one pandas
    DataFrame.  Numbers that pandas holds as float64 are modelled by exact
    rationals ([Q]); the result of a float division by zero (NaN or inf) is
    the [None] of an [option Q]; sums, quotients and roundings are those
    of the exact values, so a printed figure can differ from the script's
    in its last decimal.  Integer columns are [Z], and the cast of a float
    to an integer is the 64-bit one.  An exception raised by a cell ends the
    script, which is modelled by a small state-and-error monad further
    down; the plots enter the model by the exceptions they can raise. *)

From Stdlib Require Import String.
From Stdlib Require Import List ZArith QArith Qround Lia Lqa Bool Sorted.
Import ListNotations.

Open Scope Z_scope.

(** ** Data model *)

(** One line of creditcard.csv: [Time], the features [V1]..[V28],
    [Amount] and [Class]. *)
Record txn : Type := mk_txn {
  Time   : Q;
  V      : list Q;
  Amount : Q;
  Class  : Z
}.

(** The six values returned by [assign_risk_band]. *)
Inductive band : Type :=
  | Micro | Low | Medium | High | Premium | VeryHigh.

(** The string that the source returns for each band. *)
Definition band_label (b : band) : string :=
  match b with
  | Micro    => "1. Micro (< $10)"
  | Low      => "2. Low ($10-$99)"
  | Medium   => "3. Medium ($100-$499)"
  | High     => "4. High ($500-$999)"
  | Premium  => "5. Premium ($1K-$4,999)"
  | VeryHigh => "6. Very High (>= $5K)"
  end%string.

(** Position of a band in the order of its label. *)
Definition band_rank (b : band) : Z :=
  match b with
  | Micro => 1 | Low => 2 | Medium => 3
  | High => 4 | Premium => 5 | VeryHigh => 6
  end.

Definition band_eqb (a b : band) : bool := band_rank a =? band_rank b.

Definition all_bands : list band :=
  [Micro; Low; Medium; High; Premium; VeryHigh].

(** ** CELL 7: assign_risk_band *)

Definition Qltb (x y : Q) : bool := negb (Qle_bool y x).

Definition assign_risk_band (amount : Q) : band :=
  if Qltb amount 10 then Micro
  else if Qltb amount 100 then Low
  else if Qltb amount 500 then Medium
  else if Qltb amount 1000 then High
  else if Qltb amount 5000 then Premium
  else VeryHigh.

(** The half-open interval that the specification gives for each band
    (a second definition, written from the specification's table, that
    [assign_risk_band] is compared with). *)
Definition band_interval (b : band) (a : Q) : Prop :=
  match b with
  | Micro    => (0 <= a /\ a < 10)%Q
  | Low      => (10 <= a /\ a < 100)%Q
  | Medium   => (100 <= a /\ a < 500)%Q
  | High     => (500 <= a /\ a < 1000)%Q
  | Premium  => (1000 <= a /\ a < 5000)%Q
  | VeryHigh => (5000 <= a)%Q
  end.

(** ** CELL 8: the hour-of-day expression *)

(** The range of the 64-bit signed integers. *)
Definition int64_min : Z := - 2 ^ 63.

Definition int64_max : Z := 2 ^ 63 - 1.

(** [astype(int)] on a float: truncation toward zero, cast to int64.  A
    value whose truncation does not fit is cast to the least int64. *)
Definition astype_int (x : Q) : Z :=
  let q := Z.quot (Qnum x) (Zpos (Qden x)) in
  if (int64_min <=? q) && (q <=? int64_max) then q else int64_min.

(** [(df['Time'] / 3600).astype(int) % 24] for one value of the column.
    [%] is the floored modulo of Python and numpy, [Z.modulo]. *)
Definition hour_of_day (t : Q) : Z := (astype_int (t / 3600)) mod 24.


(** ** Float helpers *)

Definition Qsum (l : list Q) : Q := fold_right Qplus 0%Q l.

Definition Zsum (l : list Z) : Z := fold_right Z.add 0 l.

(** Float division as numpy does it: no exception on a zero divisor, the
    result is NaN or inf, which is [None] here. *)
Definition fdiv (x y : Q) : option Q :=
  if Qeq_bool y 0 then None else Some (x / y)%Q.

(** Round to the nearest integer, halves to the even one. *)
Definition rint (x : Q) : Z :=
  let f := Qfloor x in
  match Qcompare (x - inject_Z f) (1 # 2) with
  | Lt => f
  | Gt => f + 1
  | Eq => if Z.even f then f else f + 1
  end.

(** [round(x, d)] and [Series.round(d)], taken on the exact value: the
    script rounds the float that stands for it, so its result can differ
    from this one by a unit of the last decimal. *)
Definition round_dec (d : nat) (x : Q) : Q :=
  (inject_Z (rint (x * inject_Z (10 ^ Z.of_nat d))) / inject_Z (10 ^ Z.of_nat d))%Q.

Definition fround (d : nat) (x : option Q) : option Q :=
  option_map (round_dec d) x.

(** [Series.mean()]: NaN on an empty series. *)
Definition mean (l : list Q) : option Q :=
  fdiv (Qsum l) (inject_Z (Z.of_nat (length l))).

(** ** Exceptions *)

Inductive exn : Type :=
  | FileNotFoundError
  | ParserError
  | KeyError (label : Z)
  | KeyError_column (name : string)
  | ValueError_length (expected got : nat)
  | ValueError_argmax
  | ValueError_shape (names heights : nat)
  | FileNotFoundError_path (path : string).

Definition result (A : Type) : Type := (exn + A)%type.

Definition rbind {A B : Type} (m : result A) (k : A -> result B) : result B :=
  match m with
  | inl e => inl e
  | inr a => k a
  end.

Notation "x <-? m ; k" := (rbind m (fun x => k))
  (at level 61, m at next level, right associativity).

(** ** groupby *)

Section GroupBy.
Context {K : Type} (rank : K -> Z).

Definition key_eqb (a b : K) : bool := rank a =? rank b.

Definition key_lt (a b : K) : Prop := rank a < rank b.

(** Put a key at its place in a sorted list of distinct keys. *)
Fixpoint insert_key (k : K) (ks : list K) : list K :=
  match ks with
  | [] => [k]
  | x :: t =>
      if rank k <? rank x then k :: ks
      else if rank k =? rank x then ks
      else x :: insert_key k t
  end.

(** The group keys of a column: its distinct values, sorted. *)
Definition group_keys (col : list K) : list K :=
  fold_right insert_key [] col.

(** The lines of the group of [k], in the order of the table. *)
Definition get_group {R : Type} (k : K) (kr : list (K * R)) : list R :=
  map snd (filter (fun p => key_eqb (fst p) k) kr).
End GroupBy.

(** ** CELL 4: duplicate rows *)

(** Equality of two lines, column by column; two floats are equal when
    their values are. *)
Fixpoint Qlist_eqb (l1 l2 : list Q) : bool :=
  match l1, l2 with
  | [], [] => true
  | x :: t1, y :: t2 => Qeq_bool x y && Qlist_eqb t1 t2
  | _, _ => false
  end.

Definition txn_eqb (a b : txn) : bool :=
  Qeq_bool (Time a) (Time b) && Qlist_eqb (V a) (V b)
  && Qeq_bool (Amount a) (Amount b) && (Class a =? Class b).

(** [df.duplicated()]: a line is marked when an equal line stands before
    it; [seen] holds the lines already passed. *)
Fixpoint duplicated_from (seen rows : list txn) : list bool :=
  match rows with
  | [] => []
  | r :: t => existsb (txn_eqb r) seen :: duplicated_from (r :: seen) t
  end.

Definition duplicated (rows : list txn) : list bool := duplicated_from [] rows.

(** Line 54: [dupes = df.duplicated().sum()]. *)
Definition dupes (rows : list txn) : Z :=
  Z.of_nat (length (filter (fun b => b) (duplicated rows))).

(** ** CELL 5: class distribution *)

(** [Series.value_counts()] as label/count pairs.  pandas lists the pairs
    by decreasing count; the script only looks counts up by label, so the
    pairs are kept in label order here. *)
Definition value_counts (col : list Z) : list (Z * Z) :=
  map (fun k => (k, Z.of_nat (length (filter (Z.eqb k) col))))
      (group_keys id col).

(** [value_counts(normalize=True) * 100]. *)
Definition value_counts_pct (col : list Z) : list (Z * Q) :=
  map (fun p => (fst p,
                 (inject_Z (snd p) / inject_Z (Z.of_nat (length col)) * 100)%Q))
      (value_counts col).

(** [s[label]] on a series with an integer index. *)
Fixpoint series_get {A : Type} (s : list (Z * A)) (label : Z) : result A :=
  match s with
  | [] => inl (KeyError label)
  | (k, v) :: t => if k =? label then inr v else series_get t label
  end.

Record class_table : Type := mk_class_table {
  legitimate_count : Z;
  fraudulent_count : Z;
  legitimate_pct   : Q;
  fraudulent_pct   : Q
}.

Definition fraud_summary (classes : list Z) : result class_table :=
  let fraud_counts := value_counts classes in
  let fraud_pct := value_counts_pct classes in
  c0 <-? series_get fraud_counts 0 ;
  c1 <-? series_get fraud_counts 1 ;
  p0 <-? series_get fraud_pct 0 ;
  p1 <-? series_get fraud_pct 1 ;
  inr (mk_class_table c0 c1 (round_dec 4 p0) (round_dec 4 p1)).

(** ** CELL 6: amount statistics *)

(** [df[df['Class'] == c]['Amount']]. *)
Definition amounts_of_class (c : Z) (rows : list txn) : list Q :=
  map Amount (filter (fun r => Class r =? c) rows).

(** Count and mean of the two partitions; the median, deviation, minimum
    and maximum of the source are further read-only statistics of the same
    two series and are left out. *)
Record amount_table : Type := mk_amount_table {
  legit_len  : nat;
  legit_mean : option Q;
  fraud_len  : nat;
  fraud_mean : option Q
}.

Definition amount_stats (rows : list txn) : amount_table :=
  let legit_amt := amounts_of_class 0 rows in
  let fraud_amt := amounts_of_class 1 rows in
  mk_amount_table (length legit_amt) (fround 2 (mean legit_amt))
                  (length fraud_amt) (fround 2 (mean fraud_amt)).

(** ** CELL 7: band summary *)

(** Line 150: [df['Amount'].apply(assign_risk_band)]. *)
Definition band_column (rows : list txn) : list band :=
  map (fun r => assign_risk_band (Amount r)) rows.

(** A line of [band_summary] after line 157. *)
Record band_row : Type := mk_band_row {
  amount_band        : band;
  total_transactions : Z;
  fraud_count        : Z;
  total_amount       : Q;
  fraud_rate_pct     : option Q
}.

(** Lines 152-157: [groupby('amount_band').agg(...)], then the rate. *)
Definition band_groupby_agg (bands : list band) (rows : list txn)
  : list band_row :=
  let keyed := combine bands rows in
  map (fun b =>
         let g := get_group band_rank b keyed in
         let total := Z.of_nat (length g) in
         let frauds := Zsum (map Class g) in
         mk_band_row b total frauds (Qsum (map Amount g))
           (fround 2 (option_map (fun q => q * 100)%Q
                        (fdiv (inject_Z frauds) (inject_Z total)))))
      (group_keys band_rank bands).

(** The right-hand side of line 158:
    [df[df['Class']==1].groupby('amount_band')['Amount'].sum().values]. *)
Definition fraud_exposure_values (bands : list band) (rows : list txn)
  : list Q :=
  let fraud_only := filter (fun p => Class (snd p) =? 1) (combine bands rows) in
  map (fun b => Qsum (map Amount (get_group band_rank b fraud_only)))
      (group_keys band_rank (map fst fraud_only)).

(** [table[name] = values]: the values are attached by position and their
    number has to be the number of lines. *)
Definition assign_column {A B : Type} (tbl : list A) (values : list B)
  : result (list (A * B)) :=
  if Nat.eqb (length values) (length tbl) then inr (combine tbl values)
  else inl (ValueError_length (length tbl) (length values)).

(** [band_summary] after line 158; [fraud_exposure] is the new column. *)
Definition band_summary (bands : list band) (rows : list txn)
  : result (list (band_row * Q)) :=
  assign_column (band_groupby_agg bands rows)
                (fraud_exposure_values bands rows).

Definition fraud_exposure (r : band_row * Q) : Q := snd r.

(** ** CELL 8: hourly table *)

(** Line 182, the whole column. *)
Definition hour_column (rows : list txn) : list Z :=
  map (fun r => hour_of_day (Time r)) rows.

Record hourly_row : Type := mk_hourly_row {
  hour       : Z;
  legitimate : Z;
  fraudulent : Z;
  fraud_rate : option Q
}.

(** [groupby(['hour_of_day','Class']).size()] at one key pair. *)
Definition size_at (keyed : list (Z * Z)) (h c : Z) : Z :=
  Z.of_nat (length (filter (fun p => (fst p =? h) && (snd p =? c)) keyed)).

(** Lines 184-186.  [unstack(fill_value=0)] has one line per hour of the
    column and one column per class of the table; with [reset_index] that
    is one column more, and line 185 gives the columns three names, which
    is a length mismatch unless exactly two classes occur. *)
Definition hourly (hours : list Z) (rows : list txn)
  : result (list hourly_row) :=
  let classes := map Class rows in
  let keyed := combine hours classes in
  match group_keys id classes with
  | [c0; c1] =>
      inr (map (fun h =>
                  let l := size_at keyed h c0 in
                  let f := size_at keyed h c1 in
                  mk_hourly_row h l f
                    (fround 4 (option_map (fun q => q * 100)%Q
                                 (fdiv (inject_Z f) (inject_Z (l + f))))))
               (group_keys id hours))
  | cs => inl (ValueError_length (S (length cs)) 3)
  end.

(** Line 216: [hourly.nlargest(5, 'fraud_rate')].  The lines are taken by
    decreasing rate, lines of equal rate in the order of the table (the
    default keep='first'); NaN counts as below every number. *)
Definition rate_ltb (a b : option Q) : bool :=
  match a, b with
  | Some x, Some y => Qltb x y
  | None, Some _ => true
  | _, None => false
  end.

Fixpoint insert_by_rate (e : hourly_row) (l : list hourly_row)
  : list hourly_row :=
  match l with
  | [] => [e]
  | x :: t =>
      if rate_ltb (fraud_rate e) (fraud_rate x) then x :: insert_by_rate e t
      else e :: l
  end.

Definition sort_by_rate (tbl : list hourly_row) : list hourly_row :=
  fold_right insert_by_rate [] tbl.

Definition nlargest (n : nat) (tbl : list hourly_row) : list hourly_row :=
  firstn n (sort_by_rate tbl).

(** ** CELL 10: executive summary *)

(** Scan of [idxmax]: position and value of the first maximum seen so
    far; NaN entries are skipped. *)
Fixpoint idxmax_scan (l : list (option Q)) (i : nat) (best : option (nat * Q))
  : option (nat * Q) :=
  match l with
  | [] => best
  | None :: t => idxmax_scan t (S i) best
  | Some x :: t =>
      match best with
      | None => idxmax_scan t (S i) (Some (i, x))
      | Some (_, m) =>
          if Qltb m x then idxmax_scan t (S i) (Some (i, x))
          else idxmax_scan t (S i) best
      end
  end.

Definition idxmax (l : list (option Q)) : result nat :=
  match idxmax_scan l 0%nat None with
  | Some (i, _) => inr i
  | None => inl ValueError_argmax
  end.

(** [table.loc[i, column]] on a table with the default index. *)
Definition loc {A B : Type} (tbl : list A) (i : nat) (column : A -> B)
  : result B :=
  match nth_error tbl i with
  | Some r => inr (column r)
  | None => inl (KeyError (Z.of_nat i))
  end.

Definition peak_hour (hourly : list hourly_row) : result Z :=
  i <-? idxmax (map fraud_rate hourly) ;
  loc hourly i hour.

Definition highest_band (band_summary : list (band_row * Q)) : result band :=
  i <-? idxmax (map (fun r => fraud_rate_pct (fst r)) band_summary) ;
  loc band_summary i (fun r => amount_band (fst r)).

Record executive_summary : Type := mk_executive_summary {
  total_txns        : Z;
  total_fraud       : Z;
  overall_rate      : option Q;
  total_volume      : Q;
  total_exposure    : Q;
  avg_fraud_amt     : option Q;
  avg_legit_amt     : option Q;
  exec_peak_hour    : Z;
  exec_highest_band : band
}.

Definition executive (rows : list txn) (band_summary : list (band_row * Q))
    (hourly : list hourly_row) : result executive_summary :=
  let total_txns := Z.of_nat (length rows) in
  let total_fraud := Zsum (map Class rows) in
  let fraud_rate :=
    fround 4 (option_map (fun q => q * 100)%Q
                (fdiv (inject_Z total_fraud) (inject_Z total_txns))) in
  let total_volume := round_dec 2 (Qsum (map Amount rows)) in
  let fraud_exposure := round_dec 2 (Qsum (amounts_of_class 1 rows)) in
  let avg_fraud_amt := fround 2 (mean (amounts_of_class 1 rows)) in
  let avg_legit_amt := fround 2 (mean (amounts_of_class 0 rows)) in
  ph <-? peak_hour hourly ;
  hb <-? highest_band band_summary ;
  inr (mk_executive_summary total_txns total_fraud fraud_rate total_volume
         fraud_exposure avg_fraud_amt avg_legit_amt ph hb).

(** ** The script: one DataFrame, cells run in order *)

(** The DataFrame [df]: the loaded lines, and the two columns that the
    script attaches, absent until their assignment. *)
Record DataFrame : Type := mk_df {
  df_rows        : list txn;
  df_amount_band : option (list band);
  df_hour_of_day : option (list Z)
}.

(** What a cell prints or plots. *)
Inductive report : Type :=
  | LibrariesLoaded
  | DatasetShape (n : nat)
  | DataStructure
  | MissingValueAudit
  | ClassDistribution (t : class_table)
  | AmountStatistics (t : amount_table)
  | FraudRateByBand (t : list (band_row * Q))
  | HourlyFraud (t : list hourly_row)
  | CorrelationHeatmap
  | ExecutiveSummary (s : executive_summary).

(** The reports of cells 5 to 10, the summarizers. *)
Definition is_summarizer_report (r : report) : bool :=
  match r with
  | LibrariesLoaded | DatasetShape _ | DataStructure | MissingValueAudit => false
  | _ => true
  end.

(** The state of a run: the DataFrame, what was printed so far, and
    whether the working directory has the directory outputs/ that the
    five [savefig] calls write to. *)
Record state : Type := mk_state {
  df          : DataFrame;
  stdout      : list report;
  outputs_dir : bool
}.

(** A cell: it may change the state, and it ends with a value or with an
    exception; the state reached is kept in both cases. *)
Definition Script (A : Type) : Type := state -> state * result A.

Definition ret {A : Type} (a : A) : Script A := fun st => (st, inr a).

Definition bind {A B : Type} (m : Script A) (k : A -> Script B) : Script B :=
  fun st =>
    match m st with
    | (st', inl e) => (st', inl e)
    | (st', inr a) => k a st'
    end.

Notation "x <- m ;; k" := (bind m (fun x => k))
  (at level 61, m at next level, right associativity).
Notation "m ;; k" := (bind m (fun _ => k))
  (at level 61, right associativity).

Definition lift {A : Type} (r : result A) : Script A := fun st => (st, r).

Definition get_df : Script DataFrame := fun st => (st, inr (df st)).

Definition print (r : report) : Script unit :=
  fun st => (mk_state (df st) (stdout st ++ [r]) (outputs_dir st), inr tt).

(** [df['amount_band'] = col]. *)
Definition set_amount_band (col : list band) : Script unit :=
  fun st =>
    (mk_state (mk_df (df_rows (df st)) (Some col) (df_hour_of_day (df st)))
              (stdout st) (outputs_dir st), inr tt).

(** [df['hour_of_day'] = col]. *)
Definition set_hour_of_day (col : list Z) : Script unit :=
  fun st =>
    (mk_state (mk_df (df_rows (df st)) (df_amount_band (df st)) (Some col))
              (stdout st) (outputs_dir st), inr tt).

(** Reading an attached column: KeyError while it is absent. *)
Definition column_amount_band (d : DataFrame) : result (list band) :=
  match df_amount_band d with
  | Some col => inr col
  | None => inl (KeyError_column "amount_band")
  end.

Definition column_hour_of_day (d : DataFrame) : result (list Z) :=
  match df_hour_of_day d with
  | Some col => inr col
  | None => inl (KeyError_column "hour_of_day")
  end.

(** [plt.savefig(path)] under outputs/: FileNotFoundError when the
    directory does not exist; the script never creates it. *)
Definition savefig (path : string) : Script unit :=
  fun st =>
    if outputs_dir st then (st, inr tt)
    else (st, inl (FileNotFoundError_path path)).

(** [ax.bar(x, height)]: the two sequences are broadcast to one shape,
    which needs equal lengths or a length of 1. *)
Definition broadcastable (n m : nat) : bool :=
  (n =? m)%nat || (n =? 1)%nat || (m =? 1)%nat.

Definition bar {A B : Type} (x : list A) (height : list B) : result unit :=
  if broadcastable (length x) (length height) then inr tt
  else inl (ValueError_shape (length x) (length height)).

(** [ax.pie(x, labels=labels)]: one label for each wedge. *)
Definition pie {A : Type} (x : list A) (labels : list string) : result unit :=
  if (length labels =? length x)%nat then inr tt
  else inl (ValueError_length (length x) (length labels)).

(** Lines 75-85: the bar chart and the pie chart of [fraud_counts.values],
    which has one count for each label of the column, under the two names
    of the source. *)
Definition class_charts (classes : list Z) : result unit :=
  let values := map snd (value_counts classes) in
  _ <-? bar ["Legitimate"; "Fraudulent"]%string values ;
  pie values ["Legitimate"; "Fraudulent"]%string.

(** Lines 221-222: [df[feature_cols]], the columns V1..V10, Amount and
    Class; KeyError when one of the feature columns is not in the table. *)
Definition has_feature_cols (rows : list txn) : bool :=
  forallb (fun r => (10 <=? length (V r))%nat) rows.

Definition feature_frame (rows : list txn) : result (list (list Q)) :=
  if has_feature_cols rows then
    inr (map (fun r => firstn 10 (V r) ++ [Amount r; inject_Z (Class r)]) rows)
  else inl (KeyError_column "V1..V10").

Definition cell2 : Script unit :=
  d <- get_df ;; print (DatasetShape (length (df_rows d))).

Definition cell3 : Script unit := print DataStructure.

Definition cell4 : Script unit := print MissingValueAudit.

Definition cell5 : Script unit :=
  d <- get_df ;;
  t <- lift (fraud_summary (map Class (df_rows d))) ;;
  print (ClassDistribution t) ;;
  lift (class_charts (map Class (df_rows d))) ;;
  savefig "outputs/01_class_distribution.png".

Definition cell6 : Script unit :=
  d <- get_df ;;
  print (AmountStatistics (amount_stats (df_rows d))) ;;
  savefig "outputs/02_amount_analysis.png".

Definition cell7 : Script (list (band_row * Q)) :=
  d <- get_df ;;
  set_amount_band (band_column (df_rows d)) ;;
  d <- get_df ;;
  bands <- lift (column_amount_band d) ;;
  t <- lift (band_summary bands (df_rows d)) ;;
  print (FraudRateByBand t) ;;
  lift (bar (map (fun e => amount_band (fst e)) t)
            (map (fun e => fraud_rate_pct (fst e)) t)) ;;
  savefig "outputs/03_fraud_rate_by_amount_band.png" ;;
  ret t.

Definition cell8 : Script (list hourly_row) :=
  d <- get_df ;;
  set_hour_of_day (hour_column (df_rows d)) ;;
  d <- get_df ;;
  hours <- lift (column_hour_of_day d) ;;
  t <- lift (hourly hours (df_rows d)) ;;
  lift (bar (map hour t) (map legitimate t)) ;;
  lift (bar (map hour t) (map fraudulent t)) ;;
  savefig "outputs/04_time_fraud_analysis.png" ;;
  print (HourlyFraud t) ;;
  ret t.

Definition cell9 : Script unit :=
  d <- get_df ;;
  lift (feature_frame (df_rows d)) ;;
  savefig "outputs/05_correlation_heatmap.png" ;;
  print CorrelationHeatmap.

Definition cell10 (band_summary : list (band_row * Q))
    (hourly : list hourly_row) : Script unit :=
  d <- get_df ;;
  s <- lift (executive (df_rows d) band_summary hourly) ;;
  print (ExecutiveSummary s).

(** Cells 2 to 10, after the file is read. *)
Definition cells : Script unit :=
  cell2 ;; cell3 ;; cell4 ;; cell5 ;; cell6 ;;
  band_summary <- cell7 ;;
  hourly <- cell8 ;;
  cell9 ;;
  cell10 band_summary hourly.

(** What [pd.read_csv("creditcard.csv")] finds: pandas and the file
    system are outside the script, so the three cases are its input. *)
Inductive csv_file : Type :=
  | Absent
  | Malformed
  | Table (rows : list txn).

Definition read_csv (f : csv_file) : result (list txn) :=
  match f with
  | Absent => inl FileNotFoundError
  | Malformed => inl ParserError
  | Table rows => inr rows
  end.

(** The end of a run: the DataFrame if one was loaded, what was printed,
    and normal completion or the uncaught exception. *)
Record outcome : Type := mk_outcome {
  final_df : option DataFrame;
  printed  : list report;
  status   : result unit
}.

(** A run of the script; [outputs] tells whether the working directory
    has the directory outputs/. *)
Definition run (outputs : bool) (f : csv_file) : outcome :=
  match read_csv f with
  | inl e => mk_outcome None [LibrariesLoaded] (inl e)
  | inr rows =>
      let (st, r) :=
        cells (mk_state (mk_df rows None None) [LibrariesLoaded] outputs) in
      mk_outcome (Some (df st)) (stdout st) r
  end.

(** The run in a working directory that has outputs/, the directory the
    script writes its five charts to. *)
Definition main (f : csv_file) : outcome := run true f.

(** ** Properties of runs *)

(** A cell leaves the loaded lines of [df] as they are, and each of the two
    attached columns either as it is or set to the column derived from
    the loaded lines; this also covers a cell that ends with an exception. *)
Definition only_attaches_derived_columns {A : Type} (m : Script A) : Prop :=
  forall st : state,
    let d := df st in
    let d' := df (fst (m st)) in
    df_rows d' = df_rows d /\
    (df_amount_band d' = df_amount_band d \/
     df_amount_band d' = Some (band_column (df_rows d))) /\
    (df_hour_of_day d' = df_hour_of_day d \/
     df_hour_of_day d' = Some (hour_column (df_rows d))).

(** No report of a summarizer has been printed. *)
Definition no_summarizer_ran (o : outcome) : Prop :=
  forall r, In r (printed o) -> is_summarizer_report r = false.

(** The run is not ended by an exception. *)
Definition not_crashed (o : outcome) : Prop := status o = inr tt.

(** The words of the specification on a file that cannot be loaded: the
    run stops before the summarizers, and the pipeline is not crashed. *)
Definition load_failure_contained (f : csv_file) : Prop :=
  no_summarizer_ran (main f) /\ not_crashed (main f).

(** The words of the specification on the hourly view: an entry for each
    of the hours 0..23, and rate 0 where both counts are 0. *)
Definition hourly_covers_24_hours (rows : list txn) : Prop :=
  exists t, hourly (hour_column rows) rows = inr t /\
    (forall h, 0 <= h <= 23 -> exists e, In e t /\ hour e = h) /\
    (forall e, In e t -> legitimate e = 0 -> fraudulent e = 0 ->
       exists q, fraud_rate e = Some q /\ (q == 0)%Q).

(** The run prints an executive summary whose peak fraud hour is [h]. *)
Definition reports_peak_hour (rows : list txn) (h : Z) : Prop :=
  exists s, In (ExecutiveSummary s) (printed (main (Table rows))) /\
    exec_peak_hour s = h.


(** The number of lines of an hour and a class. *)
Definition hour_class_count (rows : list txn) (h c : Z) : Z :=
  Z.of_nat (length (filter (fun r => (hour_of_day (Time r) =? h)
                                     && (Class r =? c)) rows)).

(** The words of the specification on a table without fraud: the peak
    fraud hour is hour 0. *)
Definition all_legitimate_peaks_at_hour_0 (rows : list txn) : Prop :=
  (forall r, In r rows -> Class r = 0) -> reports_peak_hour rows 0.

(** ** Sample tables *)

(** A line with the 28 feature columns at 0. *)
Definition sample_txn (time amount : Q) (class : Z) : txn :=
  mk_txn time (repeat 0%Q 28) amount class.

(** A legitimate 5.00 in the Micro band and a fraudulent 50.00 in the Low
    band. *)
Definition two_bands_one_fraud : list txn :=
  [sample_txn 0 5 0; sample_txn 3600 50 1].

(** One legitimate transaction only. *)
Definition single_legitimate : list txn := [sample_txn 3600 5 0].

(** Both labels, one band, one hour. *)
Definition one_hour_both_labels : list txn :=
  [sample_txn 0 5 0; sample_txn 0 5 1].

(** The five-line scenario of the specification: amounts 5, 50 and three
    times 5000, labels 0, 0, 1, 1, 1. *)
Definition five_line_scenario : list txn :=
  [sample_txn 0 5 0; sample_txn 0 50 0; sample_txn 0 5000 1;
   sample_txn 0 5000 1; sample_txn 0 5000 1].

(** Both labels in two bands and three hours; the script runs to its
    end on it. *)
Definition four_transactions : list txn :=
  [sample_txn 0 5 0; sample_txn 90000 5 1;
   sample_txn 7200 5000 1; sample_txn 7300 6000 0].

(** ** Basic facts on the comparisons *)

Lemma Qltb_lt (x y : Q) : Qltb x y = true <-> (x < y)%Q.
Proof.
  unfold Qltb. rewrite negb_true_iff. split; intro H.
  - apply Qnot_le_lt. intro Hle. apply Qle_bool_iff in Hle. congruence.
  - destruct (Qle_bool y x) eqn:E; [|reflexivity].
    apply Qle_bool_iff in E. exfalso. exact (Qlt_not_le _ _ H E).
Qed.

Lemma Qltb_ge (x y : Q) : Qltb x y = false <-> (y <= x)%Q.
Proof.
  unfold Qltb. rewrite negb_false_iff. apply Qle_bool_iff.
Qed.

Lemma band_rank_inj (a b : band) : band_rank a = band_rank b -> a = b.
Proof. destruct a, b; simpl; intro H; try reflexivity; discriminate H. Qed.

(** The labels sort, as strings, in the order of [band_rank]: a groupby
    on the label column lists the bands by ascending amount. *)
Lemma band_label_order (a b : band) :
  String.compare (band_label a) (band_label b)
  = Z.compare (band_rank a) (band_rank b).
Proof. destruct a, b; reflexivity. Qed.

Lemma assign_risk_band_interval (a : Q) (b : band) :
  (0 <= a)%Q -> (assign_risk_band a = b <-> band_interval b a).
Proof.
  intro Hpos. unfold assign_risk_band.
  destruct (Qltb a 10) eqn:E1;
    [apply Qltb_lt in E1 | apply Qltb_ge in E1;
  destruct (Qltb a 100) eqn:E2;
    [apply Qltb_lt in E2 | apply Qltb_ge in E2;
  destruct (Qltb a 500) eqn:E3;
    [apply Qltb_lt in E3 | apply Qltb_ge in E3;
  destruct (Qltb a 1000) eqn:E4;
    [apply Qltb_lt in E4 | apply Qltb_ge in E4;
  destruct (Qltb a 5000) eqn:E5;
    [apply Qltb_lt in E5 | apply Qltb_ge in E5]]]]];
  (split; [intros <-; simpl; auto
          | destruct b; simpl; intro Hb; try reflexivity; exfalso;
            unfold Qlt, Qle in *; simpl in *; lia]).
Qed.

(** C4: on a non-negative amount assign_risk_band returns the one band
    whose half-open interval [0,10) Micro, [10,100) Low, [100,500) Medium,
    [500,1000) High, [1000,5000) Premium, [5000,oo) VeryHigh holds the
    amount; the six intervals cover [0,oo) and no two of them share an
    amount; 9.99 is Micro, 10.00 Low, 99.99 Low and 100.00 Medium. *)
Theorem assign_risk_band_partition :
  (forall a : Q, (0 <= a)%Q ->
     band_interval (assign_risk_band a) a /\
     (forall b, band_interval b a -> b = assign_risk_band a)) /\
  (forall a b1 b2, band_interval b1 a -> band_interval b2 a -> b1 = b2) /\
  (forall a : Q, (0 <= a)%Q -> exists b, In b all_bands /\ band_interval b a) /\
  assign_risk_band 9.99 = Micro /\
  assign_risk_band 10.00 = Low /\
  assign_risk_band 99.99 = Low /\
  assign_risk_band 100.00 = Medium.
Proof.
  assert (Hcov : forall a, (0 <= a)%Q -> band_interval (assign_risk_band a) a).
  { intros a Ha. apply (assign_risk_band_interval a _ Ha). reflexivity. }
  assert (Hpos : forall a b, band_interval b a -> (0 <= a)%Q).
  { intros a b Hb. destruct b; simpl in Hb;
      unfold Qlt, Qle in *; simpl in *; lia. }
  repeat split.
  - apply Hcov; assumption.
  - intros b Hb. symmetry. apply (assign_risk_band_interval a b); assumption.
  - intros a b1 b2 H1 H2.
    pose proof (Hpos _ _ H1) as Ha.
    apply (assign_risk_band_interval a b1 Ha) in H1.
    apply (assign_risk_band_interval a b2 Ha) in H2. congruence.
  - intros a Ha. exists (assign_risk_band a). split; [|apply Hcov; assumption].
    unfold all_bands. destruct (assign_risk_band a); simpl; tauto.
Qed.

Lemma assign_risk_band_partition_witness :
  (0 <= 750)%Q /\
  band_interval (assign_risk_band 750) 750 /\
  (forall b, band_interval b 750 -> b = assign_risk_band 750).
Proof.
  assert (H : (0 <= 750)%Q) by (unfold Qle; simpl; lia).
  split; [exact H|].
  exact (proj1 assign_risk_band_partition 750%Q H).
Defined.

(** C10: assign_risk_band is defined on every amount, and an amount
    below 10, negative ones included, falls in the Micro band. *)
Theorem assign_risk_band_below_10 (a : Q) :
  (a < 10)%Q -> assign_risk_band a = Micro.
Proof.
  intro H. unfold assign_risk_band.
  apply Qltb_lt in H. rewrite H. reflexivity.
Qed.

Lemma assign_risk_band_below_10_witness :
  (-5 < 10)%Q /\ assign_risk_band (-5) = Micro.
Proof.
  assert (H : (-5 < 10)%Q) by (unfold Qlt; simpl; lia).
  split; [exact H | exact (assign_risk_band_below_10 (-5)%Q H)].
Defined.

(** ** Sums *)

Lemma Zsum_app (l1 l2 : list Z) : Zsum (l1 ++ l2) = Zsum l1 + Zsum l2.
Proof. induction l1 as [|x l1 IH]; simpl; [reflexivity | rewrite IH; lia]. Qed.

Lemma Zsum_map_add {A : Type} (f g : A -> Z) (l : list A) :
  Zsum (map (fun a => f a + g a) l) = Zsum (map f l) + Zsum (map g l).
Proof. induction l as [|x l IH]; simpl; [reflexivity | rewrite IH; lia]. Qed.

Lemma Zsum_map_ext {A : Type} (f g : A -> Z) (l : list A) :
  (forall a, In a l -> f a = g a) -> Zsum (map f l) = Zsum (map g l).
Proof.
  induction l as [|x l IH]; simpl; intro H; [reflexivity|].
  rewrite (H x (or_introl eq_refl)), IH; [reflexivity|].
  intros a Ha. apply H. right. exact Ha.
Qed.

Lemma Zsum_map_zero {A : Type} (f : A -> Z) (l : list A) :
  (forall a, In a l -> f a = 0) -> Zsum (map f l) = 0.
Proof.
  induction l as [|x l IH]; simpl; intro H; [reflexivity|].
  rewrite (H x (or_introl eq_refl)), IH; [reflexivity|].
  intros a Ha. apply H. right. exact Ha.
Qed.

Lemma Zsum_ones {A : Type} (l : list A) :
  Zsum (map (fun _ => 1) l) = Z.of_nat (length l).
Proof.
  induction l as [|x l IH]; [reflexivity|].
  cbn [map length]. rewrite Nat2Z.inj_succ, <- IH. unfold Zsum. cbn [fold_right]. lia.
Qed.

(** ** Facts on groupby *)

Section GroupByFacts.
Context {K : Type} (rank : K -> Z).
Hypothesis rank_inj : forall a b, rank a = rank b -> a = b.

Lemma key_eqb_eq (a b : K) : key_eqb rank a b = true <-> a = b.
Proof.
  unfold key_eqb. rewrite Z.eqb_eq. split; [apply rank_inj | intros ->; reflexivity].
Qed.

Lemma insert_key_In (k x : K) (ks : list K) :
  In x (insert_key rank k ks) <-> x = k \/ In x ks.
Proof.
  induction ks as [|y t IH]; simpl.
  - intuition.
  - destruct (rank k <? rank y) eqn:Elt; simpl.
    + intuition.
    + destruct (rank k =? rank y) eqn:Eeq; simpl.
      * apply Z.eqb_eq, rank_inj in Eeq. subst y. intuition.
      * rewrite IH. intuition.
Qed.

Lemma group_keys_In (x : K) (col : list K) :
  In x (group_keys rank col) <-> In x col.
Proof.
  induction col as [|k col IH]; simpl; [tauto|].
  rewrite insert_key_In, IH. intuition.
Qed.

Lemma insert_key_sorted (k : K) (ks : list K) :
  StronglySorted (key_lt rank) ks -> StronglySorted (key_lt rank) (insert_key rank k ks).
Proof.
  induction ks as [|y t IH]; simpl; intro Hs.
  - repeat constructor.
  - inversion Hs as [|? ? Ht Hall]; subst.
    destruct (rank k <? rank y) eqn:Elt.
    + apply Z.ltb_lt in Elt. constructor; [exact Hs|].
      constructor; [exact Elt|].
      rewrite Forall_forall in *. intros z Hz.
      unfold key_lt in *. specialize (Hall z Hz). lia.
    + apply Z.ltb_ge in Elt.
      destruct (rank k =? rank y) eqn:Eeq; [exact Hs|].
      apply Z.eqb_neq in Eeq.
      constructor; [apply IH; exact Ht|].
      rewrite Forall_forall in *. intros z Hz.
      apply insert_key_In in Hz. destruct Hz as [-> | Hz].
      * unfold key_lt. lia.
      * apply Hall. exact Hz.
Qed.

Lemma group_keys_sorted (col : list K) :
  StronglySorted (key_lt rank) (group_keys rank col).
Proof.
  induction col as [|k col IH]; simpl; [constructor | apply insert_key_sorted, IH].
Qed.

Lemma sorted_NoDup (ks : list K) : StronglySorted (key_lt rank) ks -> NoDup ks.
Proof.
  induction 1 as [|y t Ht IH Hall]; constructor; [|exact IH].
  intro Hin. rewrite Forall_forall in Hall.
  specialize (Hall y Hin). unfold key_lt in Hall. lia.
Qed.

Lemma group_keys_NoDup (col : list K) : NoDup (group_keys rank col).
Proof. apply sorted_NoDup, group_keys_sorted. Qed.

(** In a sorted list a smaller key stands at an earlier position. *)
Lemma sorted_position (ks : list K) (i j : nat) (a b : K) :
  StronglySorted (key_lt rank) ks ->
  nth_error ks i = Some a -> nth_error ks j = Some b ->
  rank a < rank b -> (i < j)%nat.
Proof.
  intro Hs. revert i j. induction Hs as [|y t Ht IH Hall]; intros i j Hi Hj Hlt.
  - destruct i; discriminate Hi.
  - rewrite Forall_forall in Hall.
    destruct i as [|i], j as [|j]; simpl in Hi, Hj.
    + injection Hi as <-. injection Hj as <-. lia.
    + lia.
    + injection Hj as <-. apply nth_error_In in Hi.
      specialize (Hall a Hi). unfold key_lt in Hall. lia.
    + apply -> Nat.succ_lt_mono. apply IH; assumption.
Qed.

(** A weight put on one key of a list of distinct keys. *)
Lemma Zsum_one_key (k0 : K) (c : Z) (ks : list K) :
  NoDup ks -> In k0 ks ->
  Zsum (map (fun k => if key_eqb rank k0 k then c else 0) ks) = c.
Proof.
  induction 1 as [|y t Hy Hnd IH]; intro Hin; [destruct Hin|].
  simpl. destruct Hin as [-> | Hin].
  - replace (key_eqb rank k0 k0) with true
      by (symmetry; apply key_eqb_eq; reflexivity).
    rewrite Zsum_map_zero; [lia|].
    intros a Ha. destruct (key_eqb rank k0 a) eqn:E; [|reflexivity].
    apply key_eqb_eq in E. subst a. contradiction.
  - destruct (key_eqb rank k0 y) eqn:E.
    + apply key_eqb_eq in E. subst y. contradiction.
    + rewrite IH by exact Hin. lia.
Qed.

(** The groups share the lines out: a sum over the table is the sum of
    its sums over the groups. *)
Lemma Zsum_groups {R : Type} (w : R -> Z) (kr : list (K * R)) (ks : list K) :
  NoDup ks -> (forall p, In p kr -> In (fst p) ks) ->
  Zsum (map (fun k => Zsum (map w (get_group rank k kr))) ks)
  = Zsum (map w (map snd kr)).
Proof.
  intros Hnd. induction kr as [|[k0 r0] kr IH]; intro Hin.
  - unfold get_group. simpl. apply Zsum_map_zero. reflexivity.
  - simpl. rewrite <- IH by (intros p Hp; apply Hin; right; exact Hp).
    rewrite <- (Zsum_one_key k0 (w r0) ks Hnd (Hin (k0, r0) (or_introl eq_refl))).
    rewrite <- Zsum_map_add. apply Zsum_map_ext. intros k _.
    unfold get_group. simpl.
    destruct (key_eqb rank k0 k); simpl; lia.
Qed.

Lemma get_group_nonempty {R : Type} (k : K) (kr : list (K * R)) :
  In k (map fst kr) -> get_group rank k kr <> [].
Proof.
  intros Hin. apply in_map_iff in Hin. destruct Hin as [[k' r] [Hk Hp]].
  simpl in Hk. subst k'. unfold get_group. intro Hnil.
  assert (Hr : In r (map snd (filter (fun p => key_eqb rank (fst p) k) kr))).
  { apply in_map_iff. exists (k, r). split; [reflexivity|].
    apply filter_In. split; [exact Hp|]. simpl. apply key_eqb_eq. reflexivity. }
  rewrite Hnil in Hr. destruct Hr.
Qed.
End GroupByFacts.

Lemma combine_map_self {A B : Type} (f : A -> B) (l : list A) :
  combine (map f l) l = map (fun a => (f a, a)) l.
Proof. induction l as [|x l IH]; simpl; [reflexivity | rewrite IH; reflexivity]. Qed.

Lemma combine_map_map {A B C : Type} (f : A -> B) (g : A -> C) (l : list A) :
  combine (map f l) (map g l) = map (fun a => (f a, g a)) l.
Proof. induction l as [|x l IH]; simpl; [reflexivity | rewrite IH; reflexivity]. Qed.

(** ** CELL 8: hour of day *)

Lemma hour_of_day_range (t : Q) : 0 <= hour_of_day t <= 23.
Proof.
  unfold hour_of_day.
  pose proof (Z.mod_pos_bound (astype_int (t / 3600)) 24 ltac:(lia)). lia.
Qed.









(** Below zero the truncation of [astype(int)] and a floored division
    part: one second before the origin is hour 0, not hour 23. *)
Lemma hour_of_day_negative_truncates :
  hour_of_day (-1) = 0 /\ (Qfloor (-1) / 3600) mod 24 = 23.
Proof. split; reflexivity. Qed.




(** ** CELL 7: the sums of the band table *)

Lemma band_keyed_in_keys (rows : list txn) (p : band * txn) :
  In p (combine (band_column rows) rows) ->
  In (fst p) (group_keys band_rank (band_column rows)).
Proof.
  intro Hp. apply (group_keys_In band_rank band_rank_inj).
  destruct p as [b r]. apply in_combine_l in Hp. exact Hp.
Qed.

Lemma snd_combine_band_column (rows : list txn) :
  map snd (combine (band_column rows) rows) = rows.
Proof.
  unfold band_column. rewrite combine_map_self, map_map. simpl. apply map_id.
Qed.

Lemma Zsum_labels (rows : list txn) :
  Forall (fun r => Class r = 0 \/ Class r = 1) rows ->
  Zsum (map Class rows)
  = Z.of_nat (length (filter (fun r => Class r =? 1) rows)).
Proof.
  induction 1 as [|r rows Hr _ IH]; [reflexivity|].
  cbn [map filter]. unfold Zsum in *. cbn [fold_right]. rewrite IH.
  destruct Hr as [-> | ->]; cbn [Z.eqb Pos.eqb length]; lia.
Qed.

(** C7: the total_transactions of the lines of the band table add up to
    the number of lines of the input table, and their fraud_count to the
    sum of the Class column, which on labels 0 and 1 is the number of
    lines whose label is 1; the table has one line per band. *)
Theorem band_totals_add_up (rows : list txn) :
  Zsum (map total_transactions (band_groupby_agg (band_column rows) rows))
  = Z.of_nat (length rows) /\
  Zsum (map fraud_count (band_groupby_agg (band_column rows) rows))
  = Zsum (map Class rows) /\
  NoDup (map amount_band (band_groupby_agg (band_column rows) rows)) /\
  (Forall (fun r => Class r = 0 \/ Class r = 1) rows ->
   Zsum (map fraud_count (band_groupby_agg (band_column rows) rows))
   = Z.of_nat (length (filter (fun r => Class r =? 1) rows))).
Proof.
  pose proof (group_keys_NoDup band_rank band_rank_inj (band_column rows)) as Hnd.
  assert (Hfraud :
    Zsum (map fraud_count (band_groupby_agg (band_column rows) rows))
    = Zsum (map Class rows)).
  { unfold band_groupby_agg. rewrite map_map. cbn [fraud_count].
    rewrite <- (snd_combine_band_column rows) at 2.
    apply (Zsum_groups band_rank band_rank_inj Class _ _ Hnd
             (band_keyed_in_keys rows)). }
  split; [|split; [exact Hfraud | split]].
  - unfold band_groupby_agg. rewrite map_map. cbn [total_transactions].
    rewrite <- (snd_combine_band_column rows) at 2.
    rewrite <- (Zsum_ones (map snd (combine (band_column rows) rows))).
    rewrite <- (Zsum_groups band_rank band_rank_inj (fun _ => 1) _ _ Hnd
                  (band_keyed_in_keys rows)).
    apply Zsum_map_ext. intros b _. symmetry. apply Zsum_ones.
  - unfold band_groupby_agg. rewrite map_map. cbn [amount_band].
    rewrite map_id. exact Hnd.
  - intro Hlab. rewrite Hfraud. apply Zsum_labels. exact Hlab.
Qed.

Lemma band_totals_add_up_witness :
  Forall (fun r => Class r = 0 \/ Class r = 1) four_transactions /\
  Zsum (map fraud_count
          (band_groupby_agg (band_column four_transactions) four_transactions))
  = 2.
Proof.
  assert (H : Forall (fun r => Class r = 0 \/ Class r = 1) four_transactions).
  { unfold four_transactions.
    repeat (apply Forall_cons; [simpl; auto|]). apply Forall_nil. }
  split; [exact H|].
  exact (proj2 (proj2 (proj2 (band_totals_add_up four_transactions))) H).
Defined.

(** ** CELL 5: lookups by label *)

Lemma series_get_present {A : Type} (g : Z -> A) (ks : list Z) (label : Z) :
  In label ks -> series_get (map (fun k => (k, g k)) ks) label = inr (g label).
Proof.
  induction ks as [|k ks IH]; intro Hin; [destruct Hin|].
  simpl. destruct (k =? label) eqn:E.
  - apply Z.eqb_eq in E. subst k. reflexivity.
  - apply IH. destruct Hin as [-> | Hin]; [|exact Hin].
    rewrite Z.eqb_refl in E. discriminate E.
Qed.

Lemma series_get_absent {A : Type} (g : Z -> A) (ks : list Z) (label : Z) :
  ~ In label ks -> series_get (map (fun k => (k, g k)) ks) label = inl (KeyError label).
Proof.
  induction ks as [|k ks IH]; intro Hin; [reflexivity|].
  simpl. destruct (k =? label) eqn:E.
  - apply Z.eqb_eq in E. subst k. exfalso. apply Hin. left. reflexivity.
  - apply IH. intro H. apply Hin. right. exact H.
Qed.

Lemma id_inj (a b : Z) : id a = id b -> a = b.
Proof. exact (fun H => H). Qed.

Lemma value_counts_get_absent (classes : list Z) (label : Z) :
  ~ In label classes ->
  series_get (value_counts classes) label = inl (KeyError label).
Proof.
  intro H. unfold value_counts. apply series_get_absent.
  intro Hin. apply H. apply (group_keys_In id id_inj). exact Hin.
Qed.

Lemma value_counts_get_present (classes : list Z) (label : Z) :
  In label classes ->
  series_get (value_counts classes) label
  = inr (Z.of_nat (length (filter (Z.eqb label) classes))).
Proof.
  intro H. unfold value_counts.
  apply (series_get_present (fun k => Z.of_nat (length (filter (Z.eqb k) classes)))).
  apply (group_keys_In id id_inj). exact H.
Qed.

Lemma value_counts_pct_get_present (classes : list Z) (label : Z) :
  In label classes ->
  series_get (value_counts_pct classes) label
  = inr (inject_Z (Z.of_nat (length (filter (Z.eqb label) classes)))
         / inject_Z (Z.of_nat (length classes)) * 100)%Q.
Proof.
  intro H. unfold value_counts_pct, value_counts. rewrite map_map. cbn [fst snd].
  apply (series_get_present
           (fun k => (inject_Z (Z.of_nat (length (filter (Z.eqb k) classes)))
                      / inject_Z (Z.of_nat (length classes)) * 100)%Q)).
  apply (group_keys_In id id_inj). exact H.
Qed.

(** With both labels in the column the class table is built. *)
Lemma fraud_summary_both_labels (classes : list Z) :
  In 0 classes -> In 1 classes ->
  exists t, fraud_summary classes = inr t /\
    legitimate_count t = Z.of_nat (length (filter (Z.eqb 0) classes)) /\
    fraudulent_count t = Z.of_nat (length (filter (Z.eqb 1) classes)).
Proof.
  intros H0 H1. unfold fraud_summary.
  rewrite (value_counts_get_present _ _ H0), (value_counts_get_present _ _ H1).
  rewrite (value_counts_pct_get_present _ _ H0), (value_counts_pct_get_present _ _ H1).
  cbn [rbind]. eexists. split; [reflexivity|]. split; reflexivity.
Qed.

(** C2, as the code has it: with a label absent from the Class column the
    lookup of its count raises KeyError, no count 0 and no percentage 0 is
    reported. *)
Theorem fraud_summary_absent_label_raises (classes : list Z) :
  (~ In 0 classes -> fraud_summary classes = inl (KeyError 0)) /\
  (In 0 classes -> ~ In 1 classes -> fraud_summary classes = inl (KeyError 1)).
Proof.
  unfold fraud_summary. split.
  - intro H0. rewrite (value_counts_get_absent _ _ H0). reflexivity.
  - intros H0 H1. rewrite (value_counts_get_present _ _ H0).
    cbn [rbind]. rewrite (value_counts_get_absent _ _ H1). reflexivity.
Qed.

Lemma fraud_summary_absent_label_raises_witness :
  In 0 (map Class single_legitimate) /\
  ~ In 1 (map Class single_legitimate) /\
  fraud_summary (map Class single_legitimate) = inl (KeyError 1) /\
  status (main (Table single_legitimate)) = inl (KeyError 1).
Proof.
  assert (H0 : In 0 (map Class single_legitimate)) by (left; reflexivity).
  assert (H1 : ~ In 1 (map Class single_legitimate)).
  { intros [H | []]. discriminate H. }
  split; [exact H0|]. split; [exact H1|].
  split; [|reflexivity].
  exact (proj2 (fraud_summary_absent_label_raises _) H0 H1).
Defined.

(** ** CELL 2: the loader *)

(** C8, as the code has it: when the file is absent or malformed the
    exception of read_csv ends the run; no cell after it is run, so no
    summarizer report is printed, and the run is ended by that exception. *)
Theorem load_failure_stops_run (f : csv_file) (e : exn) :
  read_csv f = inl e ->
  main f = mk_outcome None [LibrariesLoaded] (inl e) /\
  no_summarizer_ran (main f) /\
  ~ not_crashed (main f).
Proof.
  intro H. unfold main, run. rewrite H. split; [reflexivity|]. split.
  - intros r [<- | []]. reflexivity.
  - unfold not_crashed. simpl. discriminate.
Qed.

Lemma load_failure_stops_run_witness :
  read_csv Absent = inl FileNotFoundError /\
  main Absent = mk_outcome None [LibrariesLoaded] (inl FileNotFoundError).
Proof.
  split; [reflexivity|].
  exact (proj1 (load_failure_stops_run Absent FileNotFoundError eq_refl)).
Defined.

(** C8 as stated fails on an absent file: the pipeline is crashed. *)
Lemma load_failure_not_contained : ~ load_failure_contained Absent.
Proof.
  unfold load_failure_contained, not_crashed. simpl.
  intros [_ H]. discriminate H.
Qed.

(** ** The DataFrame through the run *)

Lemma only_attaches_bind {A B : Type} (m : Script A) (k : A -> Script B) :
  only_attaches_derived_columns m ->
  (forall a, only_attaches_derived_columns (k a)) ->
  only_attaches_derived_columns (bind m k).
Proof.
  intros Hm Hk st. specialize (Hm st). unfold bind.
  destruct (m st) as [st' [e | a]]; cbn [fst] in *; [exact Hm|].
  specialize (Hk a st'). cbv zeta in *.
  destruct Hm as (Hr & Hb & Hh). destruct Hk as (Hr' & Hb' & Hh').
  rewrite Hr in *. split; [exact Hr'|]. split.
  - destruct Hb' as [Hb' | Hb']; rewrite Hb'; [exact Hb | right; reflexivity].
  - destruct Hh' as [Hh' | Hh']; rewrite Hh'; [exact Hh | right; reflexivity].
Qed.

Lemma only_attaches_print (r : report) : only_attaches_derived_columns (print r).
Proof. intro st. simpl. auto. Qed.

Lemma only_attaches_lift {A : Type} (r : result A) :
  only_attaches_derived_columns (lift r).
Proof. intro st. simpl. auto. Qed.

Lemma only_attaches_get_df : only_attaches_derived_columns get_df.
Proof. intro st. simpl. auto. Qed.

Lemma only_attaches_ret {A : Type} (a : A) : only_attaches_derived_columns (ret a).
Proof. intro st. simpl. auto. Qed.

Lemma only_attaches_savefig (path : string) :
  only_attaches_derived_columns (savefig path).
Proof. intro st. unfold savefig. destruct (outputs_dir st); simpl; auto. Qed.

Create HintDb frame.

#[local] Hint Resolve only_attaches_print only_attaches_lift
  only_attaches_get_df only_attaches_ret only_attaches_savefig : frame.

Ltac frame_step :=
  repeat (apply only_attaches_bind; [|intro]); auto with frame.

Lemma only_attaches_cell2 : only_attaches_derived_columns cell2.
Proof. unfold cell2. frame_step. Qed.

Lemma only_attaches_cell5 : only_attaches_derived_columns cell5.
Proof. unfold cell5. frame_step. Qed.

Lemma only_attaches_cell6 : only_attaches_derived_columns cell6.
Proof. unfold cell6. frame_step. Qed.

(** The two assignments to [df], followed by code that attaches nothing
    else. *)
Lemma only_attaches_set_band_then {A : Type} (k : Script A) :
  only_attaches_derived_columns k ->
  only_attaches_derived_columns
    (bind get_df (fun d =>
       bind (set_amount_band (band_column (df_rows d))) (fun _ => k))).
Proof.
  intros Hk st. unfold bind, get_df, set_amount_band.
  specialize (Hk (mk_state (mk_df (df_rows (df st))
                                  (Some (band_column (df_rows (df st))))
                                  (df_hour_of_day (df st)))
                           (stdout st) (outputs_dir st))).
  cbv zeta in *. destruct (k _) as [st' r].
  cbn [fst df df_rows df_amount_band df_hour_of_day] in *.
  destruct Hk as (Hr & Hb & Hh). split; [exact Hr|]. split; [|exact Hh].
  right. destruct Hb as [Hb | Hb]; exact Hb.
Qed.

Lemma only_attaches_set_hour_then {A : Type} (k : Script A) :
  only_attaches_derived_columns k ->
  only_attaches_derived_columns
    (bind get_df (fun d =>
       bind (set_hour_of_day (hour_column (df_rows d))) (fun _ => k))).
Proof.
  intros Hk st. unfold bind, get_df, set_hour_of_day.
  specialize (Hk (mk_state (mk_df (df_rows (df st))
                                  (df_amount_band (df st))
                                  (Some (hour_column (df_rows (df st)))))
                           (stdout st) (outputs_dir st))).
  cbv zeta in *. destruct (k _) as [st' r].
  cbn [fst df df_rows df_amount_band df_hour_of_day] in *.
  destruct Hk as (Hr & Hb & Hh). split; [exact Hr|]. split; [exact Hb|].
  right. destruct Hh as [Hh | Hh]; exact Hh.
Qed.

Lemma only_attaches_cell7 : only_attaches_derived_columns cell7.
Proof. unfold cell7. apply only_attaches_set_band_then. frame_step. Qed.

Lemma only_attaches_cell8 : only_attaches_derived_columns cell8.
Proof. unfold cell8. apply only_attaches_set_hour_then. frame_step. Qed.

Lemma only_attaches_cell9 : only_attaches_derived_columns cell9.
Proof. unfold cell9. frame_step. Qed.

Lemma only_attaches_cell10 (bs : list (band_row * Q)) (hs : list hourly_row) :
  only_attaches_derived_columns (cell10 bs hs).
Proof. unfold cell10. frame_step. Qed.

Lemma only_attaches_cells : only_attaches_derived_columns cells.
Proof.
  unfold cells.
  apply only_attaches_bind; [exact only_attaches_cell2 | intros _].
  apply only_attaches_bind; [exact (only_attaches_print _) | intros _].
  apply only_attaches_bind; [exact (only_attaches_print _) | intros _].
  apply only_attaches_bind; [exact only_attaches_cell5 | intros _].
  apply only_attaches_bind; [exact only_attaches_cell6 | intros _].
  apply only_attaches_bind; [exact only_attaches_cell7 | intros bs].
  apply only_attaches_bind; [exact only_attaches_cell8 | intros hs].
  apply only_attaches_bind; [exact only_attaches_cell9 | intros _].
  apply only_attaches_cell10.
Qed.

(** C9: every summarizer cell, however it ends, leaves the loaded lines of
    the table (Time, V1..V28, Amount, Class; values and order) as they
    were, and touches the DataFrame only by attaching amount_band and
    hour_of_day, the columns derived from those lines; so does a whole
    run. *)
Theorem loaded_columns_unchanged :
  only_attaches_derived_columns cell5 /\
  only_attaches_derived_columns cell6 /\
  only_attaches_derived_columns cell7 /\
  only_attaches_derived_columns cell8 /\
  only_attaches_derived_columns cell9 /\
  (forall bs hs, only_attaches_derived_columns (cell10 bs hs)) /\
  (forall rows : list txn,
     exists d, final_df (main (Table rows)) = Some d /\
       df_rows d = rows /\
       (df_amount_band d = None \/ df_amount_band d = Some (band_column rows)) /\
       (df_hour_of_day d = None \/ df_hour_of_day d = Some (hour_column rows))).
Proof.
  split; [exact only_attaches_cell5|].
  split; [exact only_attaches_cell6|].
  split; [exact only_attaches_cell7|].
  split; [exact only_attaches_cell8|].
  split; [exact only_attaches_cell9|].
  split; [exact only_attaches_cell10|].
  intro rows. unfold main, run. cbn [read_csv].
  pose proof (only_attaches_cells
                (mk_state (mk_df rows None None) [LibrariesLoaded] true)) as H.
  destruct (cells _) as [st r]. cbn in H. cbn [final_df].
  exists (df st). split; [reflexivity|]. exact H.
Qed.

(** ** CELL 7: the fraud_exposure column *)

Lemma band_keys_In (b : band) (col : list band) :
  In b (group_keys band_rank col) <-> In b col.
Proof. exact (group_keys_In band_rank band_rank_inj b col). Qed.

(** The fraudulent lines of a band, as line 158 selects them. *)
Lemma fraud_group_filter (rows : list txn) (b : band) :
  get_group band_rank b
    (filter (fun p => Class (snd p) =? 1) (combine (band_column rows) rows))
  = filter (fun r => (Class r =? 1)
                     && band_eqb (assign_risk_band (Amount r)) b) rows.
Proof.
  unfold band_column, get_group. rewrite combine_map_self.
  induction rows as [|r rows IH]; [reflexivity|].
  cbn [map filter snd]. destruct (Class r =? 1); cbn [andb].
  - cbn [filter fst]. unfold band_eqb, key_eqb in *.
    destruct (band_rank (assign_risk_band (Amount r)) =? band_rank b);
      cbn [map snd]; rewrite IH; reflexivity.
  - exact IH.
Qed.

Lemma fraud_keys_In (rows : list txn) (b : band) :
  In b (map fst (filter (fun p => Class (snd p) =? 1)
                   (combine (band_column rows) rows)))
  <-> exists r, In r rows /\ Class r = 1 /\ assign_risk_band (Amount r) = b.
Proof.
  unfold band_column. rewrite combine_map_self, in_map_iff. split.
  - intros [[b' r] [Hb Hin]]. cbn [fst] in Hb. subst b'.
    apply filter_In in Hin. destruct Hin as [Hin Hc].
    apply in_map_iff in Hin. destruct Hin as [r' [Heq Hr']].
    injection Heq as Hb Hr. subst r'. cbn [snd] in Hc.
    exists r. split; [exact Hr'|]. split; [apply Z.eqb_eq; exact Hc | exact Hb].
  - intros [r [Hr [Hc Hb]]]. exists (b, r). split; [reflexivity|].
    apply filter_In. split.
    + apply in_map_iff. exists r. split; [rewrite Hb; reflexivity | exact Hr].
    + cbn [snd]. apply Z.eqb_eq. exact Hc.
Qed.

Lemma fraud_keys_incl (rows : list txn) :
  incl (group_keys band_rank
          (map fst (filter (fun p => Class (snd p) =? 1)
                      (combine (band_column rows) rows))))
       (group_keys band_rank (band_column rows)).
Proof.
  intros b Hb. apply (proj1 (band_keys_In _ _)) in Hb.
  apply (proj1 (fraud_keys_In _ _)) in Hb. destruct Hb as [r [Hr [_ Hb]]].
  apply band_keys_In.
  unfold band_column. apply in_map_iff. exists r. split; assumption.
Qed.

(** C1, as the code has it: when a band holds a transaction and no
    fraudulent one, line 158 has fewer values than band_summary has lines
    and the assignment raises ValueError; no exposure 0 is reported. *)
Theorem band_summary_raises_on_fraud_free_band (rows : list txn) (r : txn) :
  In r rows ->
  (forall r', In r' rows -> Class r' = 1 ->
     assign_risk_band (Amount r') <> assign_risk_band (Amount r)) ->
  exists n m : nat,
    (m < n)%nat /\
    band_summary (band_column rows) rows = inl (ValueError_length n m).
Proof.
  intros Hr Hnofraud.
  set (fk := group_keys band_rank
               (map fst (filter (fun p => Class (snd p) =? 1)
                           (combine (band_column rows) rows)))).
  set (ak := group_keys band_rank (band_column rows)).
  assert (Hlt : (length fk < length ak)%nat).
  { assert (Hnotin : ~ In (assign_risk_band (Amount r)) fk).
    { intro Hin. apply (proj1 (band_keys_In _ _)) in Hin.
      apply (proj1 (fraud_keys_In _ _)) in Hin. destruct Hin as [r' [Hr' [Hc Hb]]].
      exact (Hnofraud r' Hr' Hc Hb). }
    assert (Hnd : NoDup (assign_risk_band (Amount r) :: fk)).
    { constructor; [exact Hnotin|].
      apply (group_keys_NoDup band_rank band_rank_inj). }
    assert (Hincl : incl (assign_risk_band (Amount r) :: fk) ak).
    { intros b [<- | Hb].
      - apply band_keys_In.
        unfold band_column.
        exact (in_map (fun x => assign_risk_band (Amount x)) rows r Hr).
      - apply fraud_keys_incl. exact Hb. }
    pose proof (NoDup_incl_length Hnd Hincl) as Hlen. simpl in Hlen. lia. }
  exists (length ak), (length fk). split; [exact Hlt|].
  unfold band_summary, assign_column, band_groupby_agg, fraud_exposure_values.
  rewrite !length_map. fold fk ak.
  destruct (Nat.eqb_spec (length fk) (length ak)) as [Heq | _]; [lia | reflexivity].
Qed.

Lemma band_summary_raises_on_fraud_free_band_witness :
  In (sample_txn 0 5 0) two_bands_one_fraud /\
  (exists n m : nat,
     (m < n)%nat /\
     band_summary (band_column two_bands_one_fraud) two_bands_one_fraud
     = inl (ValueError_length n m)) /\
  status (main (Table two_bands_one_fraud)) = inl (ValueError_length 2 1).
Proof.
  assert (Hin : In (sample_txn 0 5 0) two_bands_one_fraud) by (left; reflexivity).
  split; [exact Hin|]. split; [|reflexivity].
  apply (band_summary_raises_on_fraud_free_band two_bands_one_fraud _ Hin).
  intros r' [<- | [<- | []]] Hc; [discriminate Hc|].
  intro Hb. discriminate Hb.
Defined.

(** The five-line scenario of the specification stops at line 158: Micro
    and Low hold no fraudulent transaction. *)
Lemma five_line_scenario_raises :
  status (main (Table five_line_scenario)) = inl (ValueError_length 3 1).
Proof. reflexivity. Qed.

Section SortedKeys.
Context {K : Type} (rank : K -> Z).

(** Two sorted lists of keys with the same members are the same list. *)
Lemma sorted_same_members (l1 l2 : list K) :
  StronglySorted (key_lt rank) l1 -> StronglySorted (key_lt rank) l2 ->
  (forall x, In x l1 <-> In x l2) -> l1 = l2.
Proof.
  intro H1. revert l2. induction H1 as [|a t1 Ht1 IH Ha]; intros l2 H2 Hmem.
  - destruct l2 as [|b t2]; [reflexivity|].
    exfalso. apply (proj2 (Hmem b)). left. reflexivity.
  - destruct H2 as [|b t2 Ht2 Hb].
    + exfalso. apply (proj1 (Hmem a)). left. reflexivity.
    + rewrite Forall_forall in Ha, Hb. unfold key_lt in Ha, Hb.
      assert (Hab : a = b).
      { destruct (proj1 (Hmem a) (or_introl eq_refl)) as [E | Hin]; [symmetry; exact E|].
        destruct (proj2 (Hmem b) (or_introl eq_refl)) as [E | Hin']; [exact E|].
        specialize (Ha b Hin'). specialize (Hb a Hin). lia. }
      subst b. f_equal. apply IH; [exact Ht2|].
      intro x. split; intro Hx.
      * destruct (proj1 (Hmem x) (or_intror Hx)) as [E | Hin]; [|exact Hin].
        subst x. specialize (Ha a Hx). lia.
      * destruct (proj2 (Hmem x) (or_intror Hx)) as [E | Hin]; [|exact Hin].
        subst x. specialize (Hb a Hx). lia.
Qed.
End SortedKeys.

(** When the two sides of line 158 have the same length they list the same
    bands. *)
Lemma fraud_keys_same (rows : list txn) :
  length (fraud_exposure_values (band_column rows) rows)
  = length (band_groupby_agg (band_column rows) rows) ->
  group_keys band_rank
    (map fst (filter (fun p => Class (snd p) =? 1)
                (combine (band_column rows) rows)))
  = group_keys band_rank (band_column rows).
Proof.
  unfold fraud_exposure_values, band_groupby_agg. rewrite !length_map. intro Hlen.
  apply (sorted_same_members band_rank);
    try apply (group_keys_sorted band_rank band_rank_inj).
  intro b. split; [apply fraud_keys_incl|].
  apply NoDup_length_incl;
    [apply (group_keys_NoDup band_rank band_rank_inj) | lia | apply fraud_keys_incl].
Qed.

(** Where line 158 does not raise, the exposure of each line of the band
    table is the sum of the amounts of the fraudulent transactions of its
    band. *)
Lemma band_summary_exposure (rows : list txn) (t : list (band_row * Q)) :
  band_summary (band_column rows) rows = inr t ->
  map fst t = band_groupby_agg (band_column rows) rows /\
  Forall (fun e =>
            fraud_exposure e
            = Qsum (map Amount
                      (filter (fun r => (Class r =? 1)
                                 && band_eqb (assign_risk_band (Amount r))
                                             (amount_band (fst e))) rows))) t.
Proof.
  unfold band_summary, assign_column.
  destruct (Nat.eqb_spec (length (fraud_exposure_values (band_column rows) rows))
              (length (band_groupby_agg (band_column rows) rows))) as [Hlen | _];
    [|discriminate].
  intro Ht. injection Ht as <-.
  pose proof (fraud_keys_same rows Hlen) as Hk.
  unfold fraud_exposure_values. rewrite Hk.
  unfold band_groupby_agg at 1 3. rewrite combine_map_map. split.
  - rewrite map_map. cbn [fst]. reflexivity.
  - apply Forall_forall. intros e He. apply in_map_iff in He.
    destruct He as [b [<- _]]. unfold fraud_exposure. cbn [fst snd amount_band].
    rewrite fraud_group_filter. reflexivity.
Qed.

(** Line 158 goes through when every band that holds a transaction holds
    a fraudulent one. *)
Lemma band_summary_succeeds (rows : list txn) :
  (forall r, In r rows ->
     exists r', In r' rows /\ Class r' = 1 /\
       assign_risk_band (Amount r') = assign_risk_band (Amount r)) ->
  exists t, band_summary (band_column rows) rows = inr t.
Proof.
  intro Hall.
  assert (Hk : group_keys band_rank
                 (map fst (filter (fun p => Class (snd p) =? 1)
                             (combine (band_column rows) rows)))
               = group_keys band_rank (band_column rows)).
  { apply (sorted_same_members band_rank);
      try apply (group_keys_sorted band_rank band_rank_inj).
    intro b. split; [apply fraud_keys_incl|]. intro Hb.
    apply band_keys_In. apply fraud_keys_In.
    apply (proj1 (band_keys_In _ _)) in Hb.
    unfold band_column in Hb. apply in_map_iff in Hb.
    destruct Hb as [r [<- Hr]]. destruct (Hall r Hr) as [r' H']. exists r'. exact H'. }
  unfold band_summary, assign_column, fraud_exposure_values, band_groupby_agg.
  rewrite Hk, !length_map, Nat.eqb_refl. eexists. reflexivity.
Qed.

(** ** CELL 8: the hourly table *)

Lemma Z_keys_In (x : Z) (col : list Z) : In x (group_keys id col) <-> In x col.
Proof. exact (group_keys_In id id_inj x col). Qed.

Lemma Z_keys_sorted (col : list Z) : StronglySorted Z.lt (group_keys id col).
Proof. exact (group_keys_sorted id id_inj col). Qed.

Lemma size_at_count (rows : list txn) (h c : Z) :
  size_at (combine (hour_column rows) (map Class rows)) h c
  = hour_class_count rows h c.
Proof.
  unfold size_at, hour_class_count, hour_column. rewrite combine_map_map.
  f_equal. induction rows as [|r rows IH]; [reflexivity|].
  cbn [map filter fst snd].
  destruct ((hour_of_day (Time r) =? h) && (Class r =? c));
    cbn [length]; rewrite IH; reflexivity.
Qed.

Lemma filter_length_pos {A : Type} (P : A -> bool) (l : list A) (a : A) :
  In a l -> P a = true -> 0 < Z.of_nat (length (filter P l)).
Proof.
  intros Hin HP.
  assert (H : In a (filter P l)) by (apply filter_In; split; assumption).
  destruct (filter P l); [destruct H | cbn [length]; lia].
Qed.

(** An hour of the column has a line of one of the two classes. *)
Lemma hour_total_pos (rows : list txn) (c0 c1 h : Z) :
  group_keys id (map Class rows) = [c0; c1] ->
  In h (hour_column rows) ->
  0 < hour_class_count rows h c0 + hour_class_count rows h c1.
Proof.
  intros Hk Hh. unfold hour_column in Hh. apply in_map_iff in Hh.
  destruct Hh as [r [Hrh Hr]].
  assert (Hc : In (Class r) [c0; c1]).
  { rewrite <- Hk. apply Z_keys_In. apply in_map. exact Hr. }
  assert (Hnn : forall c, 0 <= hour_class_count rows h c)
    by (intro c; unfold hour_class_count; lia).
  pose proof (Hnn c0). pose proof (Hnn c1).
  destruct Hc as [Hc | [Hc | []]].
  - assert (0 < hour_class_count rows h c0); [|lia].
    unfold hour_class_count. apply (filter_length_pos _ _ r Hr).
    rewrite Hrh, Hc, !Z.eqb_refl. reflexivity.
  - assert (0 < hour_class_count rows h c1); [|lia].
    unfold hour_class_count. apply (filter_length_pos _ _ r Hr).
    rewrite Hrh, Hc, !Z.eqb_refl. reflexivity.
Qed.

Lemma fdiv_counts (n d : Z) :
  d <> 0 -> fdiv (inject_Z n) (inject_Z d) = Some (inject_Z n / inject_Z d)%Q.
Proof.
  intro Hd. unfold fdiv, Qeq_bool, inject_Z. cbn [Qnum Qden].
  rewrite Z.mul_1_r. cbn [Z.mul].
  destruct d; [contradiction | reflexivity | reflexivity].
Qed.

(** What the hourly table holds when line 185 does not raise: the two
    classes of the table, one line per hour of the column in ascending
    order, the two counts of the hour, a positive total and its rate. *)
Lemma hourly_inv (rows : list txn) (t : list hourly_row) :
  hourly (hour_column rows) rows = inr t ->
  exists c0 c1,
    group_keys id (map Class rows) = [c0; c1] /\
    map hour t = group_keys id (hour_column rows) /\
    Forall (fun e =>
              legitimate e = hour_class_count rows (hour e) c0 /\
              fraudulent e = hour_class_count rows (hour e) c1 /\
              0 < legitimate e + fraudulent e /\
              fraud_rate e
              = Some (round_dec 4 (inject_Z (fraudulent e)
                                   / inject_Z (legitimate e + fraudulent e)
                                   * 100)%Q)) t.
Proof.
  unfold hourly.
  destruct (group_keys id (map Class rows)) as [|c0 [|c1 [|c2 cs]]] eqn:Hk;
    try discriminate.
  intro Ht. injection Ht as <-. exists c0, c1. split; [reflexivity|]. split.
  - rewrite map_map. cbn [hour]. apply map_id.
  - apply Forall_forall. intros e He. apply in_map_iff in He.
    destruct He as [h [<- Hh]]. cbn [hour legitimate fraudulent fraud_rate].
    rewrite !size_at_count.
    apply (proj1 (Z_keys_In _ _)) in Hh.
    pose proof (hour_total_pos rows c0 c1 h Hk Hh) as Hpos.
    repeat split; [exact Hpos|].
    rewrite fdiv_counts by lia. reflexivity.
Qed.

Lemma class_keys_two (rows : list txn) :
  Forall (fun r => Class r = 0 \/ Class r = 1) rows ->
  In 0 (map Class rows) -> In 1 (map Class rows) ->
  group_keys id (map Class rows) = [0; 1].
Proof.
  intros Hlab H0 H1. apply (sorted_same_members id).
  - apply (group_keys_sorted id id_inj).
  - repeat constructor.
  - intro x. rewrite Z_keys_In. split.
    + intro Hx. apply in_map_iff in Hx. destruct Hx as [r [<- Hr]].
      rewrite Forall_forall in Hlab. destruct (Hlab r Hr) as [-> | ->]; simpl; auto.
    + intros [<- | [<- | []]]; assumption.
Qed.

(** C3, as the code has it: on a table where both labels occur the hourly
    view has one entry for each hour that holds a transaction, in
    ascending order, and none for an hour without transactions; an entry
    holds the two counts of its hour, their total is positive and the rate
    is fraudulent/total*100 rounded to 4 decimals. *)
Theorem hourly_lists_hours_with_transactions (rows : list txn) :
  Forall (fun r => Class r = 0 \/ Class r = 1) rows ->
  In 0 (map Class rows) -> In 1 (map Class rows) ->
  exists t, hourly (hour_column rows) rows = inr t /\
    StronglySorted Z.lt (map hour t) /\
    (forall h, In h (map hour t)
               <-> exists r, In r rows /\ hour_of_day (Time r) = h) /\
    Forall (fun e =>
              legitimate e = hour_class_count rows (hour e) 0 /\
              fraudulent e = hour_class_count rows (hour e) 1 /\
              0 < legitimate e + fraudulent e /\
              fraud_rate e
              = Some (round_dec 4 (inject_Z (fraudulent e)
                                   / inject_Z (legitimate e + fraudulent e)
                                   * 100)%Q)) t.
Proof.
  intros Hlab H0 H1.
  pose proof (class_keys_two rows Hlab H0 H1) as Hk.
  assert (Hex : exists t, hourly (hour_column rows) rows = inr t).
  { unfold hourly. rewrite Hk. eexists. reflexivity. }
  destruct Hex as [t Ht]. exists t. split; [exact Ht|].
  destruct (hourly_inv rows t Ht) as (c0 & c1 & Hk' & Hhours & Hrows).
  rewrite Hk in Hk'. injection Hk' as <- <-.
  split; [rewrite Hhours; apply Z_keys_sorted|]. split; [|exact Hrows].
  intro h. rewrite Hhours, Z_keys_In. unfold hour_column. rewrite in_map_iff.
  split; intros [r [Ha Hb]]; exists r; split; assumption.
Qed.

Lemma hourly_lists_hours_with_transactions_witness :
  Forall (fun r => Class r = 0 \/ Class r = 1) four_transactions /\
  In 0 (map Class four_transactions) /\
  In 1 (map Class four_transactions) /\
  exists t, hourly (hour_column four_transactions) four_transactions = inr t /\
    StronglySorted Z.lt (map hour t).
Proof.
  assert (Hlab : Forall (fun r => Class r = 0 \/ Class r = 1) four_transactions).
  { unfold four_transactions.
    repeat (apply Forall_cons; [simpl; auto|]). apply Forall_nil. }
  assert (H0 : In 0 (map Class four_transactions)) by (left; reflexivity).
  assert (H1 : In 1 (map Class four_transactions)) by (right; left; reflexivity).
  split; [exact Hlab|]. split; [exact H0|]. split; [exact H1|].
  destruct (hourly_lists_hours_with_transactions four_transactions Hlab H0 H1)
    as (t & Ht & Hs & _).
  exists t. split; [exact Ht | exact Hs].
Defined.

(** C3 as stated fails on a table whose transactions all fall in hour 0:
    the hourly view has that one entry and none for hour 1. *)
Lemma hourly_misses_empty_hours : ~ hourly_covers_24_hours one_hour_both_labels.
Proof.
  intros (t & Ht & Hall & _).
  assert (E : hourly (hour_column one_hour_both_labels) one_hour_both_labels
              = inr [mk_hourly_row 0 1 1 (Some 50.0000%Q)]) by reflexivity.
  rewrite E in Ht. injection Ht as <-.
  destruct (Hall 1 ltac:(lia)) as (e & [<- | []] & He).
  discriminate He.
Qed.

(** ** CELL 10: idxmax *)

(** The scan ends on a maximum, and where it moved off the entry it
    started with, on the first position of that maximum. *)
Lemma idxmax_scan_spec (l : list (option Q)) :
  forall (i : nat) (best : option (nat * Q)) (j : nat) (m : Q),
    idxmax_scan l i best = Some (j, m) ->
    (forall k x, nth_error l k = Some (Some x) -> (x <= m)%Q) /\
    (forall bj bm, best = Some (bj, bm) -> (bm <= m)%Q) /\
    (best = Some (j, m) \/
     exists k, j = (i + k)%nat /\ nth_error l k = Some (Some m) /\
       (forall bj bm, best = Some (bj, bm) -> (bm < m)%Q) /\
       (forall k' x, (k' < k)%nat -> nth_error l k' = Some (Some x) -> (x < m)%Q)).
Proof.
  induction l as [|o t IH]; intros i best j m Hscan.
  - cbn in Hscan. subst best. split; [|split].
    + intros k x Hk. destruct k; discriminate Hk.
    + intros bj bm Hb. injection Hb as _ <-. apply Qle_refl.
    + left. reflexivity.
  - destruct o as [x|].
    + cbn [idxmax_scan] in Hscan.
      assert (Hnew : idxmax_scan t (S i) (Some (i, x)) = Some (j, m) ->
                (x <= m)%Q /\
                (forall k y, nth_error t k = Some (Some y) -> (y <= m)%Q) /\
                exists k, j = (i + k)%nat /\
                  nth_error (Some x :: t) k = Some (Some m) /\
                  (forall k' y, (k' < k)%nat ->
                     nth_error (Some x :: t) k' = Some (Some y) -> (y < m)%Q)).
      { intro H. destruct (IH _ _ _ _ H) as (Hall & Hb & Hpos).
        split; [exact (Hb i x eq_refl)|]. split; [exact Hall|].
        destruct Hpos as [Heq | (k & -> & Hk & Hlt & Hfirst)].
        - injection Heq as <- <-. exists 0%nat.
          split; [lia|]. split; [reflexivity|]. intros k' y Hk'. lia.
        - exists (S k). split; [lia|]. split; [exact Hk|].
          intros [|k'] y Hk' Hy.
          + injection Hy as <-. exact (Hlt i x eq_refl).
          + apply (Hfirst k' y); [lia | exact Hy]. }
      destruct best as [[bj bm]|].
      * destruct (Qltb bm x) eqn:E.
        -- apply Qltb_lt in E.
           destruct (Hnew Hscan) as (Hx & Hall & k & Hj & Hk & Hfirst).
           split; [|split].
           ++ intros [|k0] y Hy; [injection Hy as <-; exact Hx | exact (Hall k0 y Hy)].
           ++ intros ? ? Hb. injection Hb as _ <-.
              apply Qlt_le_weak. exact (Qlt_le_trans _ _ _ E Hx).
           ++ right. exists k. repeat split; try assumption.
              intros ? ? Hb. injection Hb as _ <-.
              destruct k as [|k]; cbn in Hk.
              ** injection Hk as <-. exact E.
              ** apply (Qlt_trans _ x); [exact E|].
                 apply (Hfirst 0%nat x); [lia | reflexivity].
        -- apply Qltb_ge in E.
           destruct (IH _ _ _ _ Hscan) as (Hall & Hb & Hpos).
           pose proof (Hb bj bm eq_refl) as Hbm.
           split; [|split].
           ++ intros [|k0] y Hy; [|exact (Hall k0 y Hy)].
              injection Hy as <-. exact (Qle_trans _ _ _ E Hbm).
           ++ exact Hb.
           ++ destruct Hpos as [Heq | (k & -> & Hk & Hlt & Hfirst)]; [left; exact Heq|].
              right. exists (S k). split; [lia|]. split; [exact Hk|]. split; [exact Hlt|].
              intros [|k'] y Hk' Hy.
              ** injection Hy as <-.
                 exact (Qle_lt_trans _ _ _ E (Hlt bj bm eq_refl)).
              ** apply (Hfirst k' y); [lia | exact Hy].
      * destruct (Hnew Hscan) as (Hx & Hall & k & Hj & Hk & Hfirst).
        split; [|split].
        -- intros [|k0] y Hy; [injection Hy as <-; exact Hx | exact (Hall k0 y Hy)].
        -- intros ? ? Hb. discriminate Hb.
        -- right. exists k. repeat split; try assumption.
           intros ? ? Hb. discriminate Hb.
    + cbn [idxmax_scan] in Hscan.
      destruct (IH _ _ _ _ Hscan) as (Hall & Hb & Hpos).
      split; [|split].
      * intros [|k0] y Hy; [discriminate Hy | exact (Hall k0 y Hy)].
      * exact Hb.
      * destruct Hpos as [Heq | (k & -> & Hk & Hlt & Hfirst)]; [left; exact Heq|].
        right. exists (S k). split; [lia|]. split; [exact Hk|]. split; [exact Hlt|].
        intros [|k'] y Hk' Hy; [discriminate Hy|].
        apply (Hfirst k' y); [lia | exact Hy].
Qed.

Lemma idxmax_scan_none (l : list (option Q)) :
  forall (i : nat) (best : option (nat * Q)),
    idxmax_scan l i best = None -> best = None /\ Forall (fun o => o = None) l.
Proof.
  induction l as [|o t IH]; intros i best Hscan.
  - cbn in Hscan. split; [exact Hscan | constructor].
  - destruct o as [x|]; cbn [idxmax_scan] in Hscan.
    + destruct best as [[bj bm]|].
      * destruct (Qltb bm x); destruct (IH _ _ Hscan) as [Hb _]; discriminate Hb.
      * destruct (IH _ _ Hscan) as [Hb _]. discriminate Hb.
    + destruct (IH _ _ Hscan) as [Hb Hall]. split; [exact Hb|].
      constructor; [reflexivity | exact Hall].
Qed.

(** [idxmax] returns the first position of the largest value. *)
Lemma idxmax_first_max (l : list (option Q)) (j : nat) :
  idxmax l = inr j ->
  exists m, nth_error l j = Some (Some m) /\
    forall k x, nth_error l k = Some (Some x) ->
      (x <= m)%Q /\ ((k < j)%nat -> (x < m)%Q).
Proof.
  unfold idxmax. destruct (idxmax_scan l 0 None) as [[j' m]|] eqn:E; [|discriminate].
  intro H. injection H as ->.
  destruct (idxmax_scan_spec l _ _ _ _ E) as (Hall & _ & Hpos).
  destruct Hpos as [Heq | (k & -> & Hk & _ & Hfirst)]; [discriminate Heq|].
  exists m. split; [exact Hk|]. intros k0 x Hx. split; [exact (Hall k0 x Hx)|].
  intro Hlt. exact (Hfirst k0 x Hlt Hx).
Qed.

(** [idxmax] raises only on a column without a number. *)
Lemma idxmax_defined (l : list (option Q)) (k : nat) (x : Q) :
  nth_error l k = Some (Some x) -> exists j, idxmax l = inr j.
Proof.
  intro Hk. unfold idxmax.
  destruct (idxmax_scan l 0 None) as [[j m]|] eqn:E; [exists j; reflexivity|].
  destruct (idxmax_scan_none l _ _ E) as [_ Hall].
  rewrite Forall_forall in Hall.
  specialize (Hall (Some x) (nth_error_In _ _ Hk)). discriminate Hall.
Qed.

Section FirstMaximum.
Context {E : Type} (rank : E -> Z) (rate : E -> option Q).

Lemma sorted_map_rank (tbl : list E) :
  StronglySorted Z.lt (map rank tbl) -> StronglySorted (key_lt rank) tbl.
Proof.
  induction tbl as [|e tbl IH]; intro Hs; [constructor|].
  cbn [map] in Hs. inversion Hs as [|? ? Ht Hall]; subst.
  constructor; [apply IH; exact Ht|].
  rewrite Forall_forall in *. intros x Hx. apply Hall. apply in_map. exact Hx.
Qed.

(** On a table sorted by key whose rates are all numbers, [idxmax] of the
    rate column stands on the line of the least key among the lines of
    the largest rate. *)
Lemma idxmax_least_key (tbl : list E) :
  StronglySorted Z.lt (map rank tbl) ->
  Forall (fun e => exists x, rate e = Some x) tbl ->
  tbl <> [] ->
  exists j e m,
    idxmax (map rate tbl) = inr j /\ nth_error tbl j = Some e /\
    rate e = Some m /\
    forall e', In e' tbl ->
      exists x, rate e' = Some x /\ (x <= m)%Q /\
        (rank e' < rank e -> (x < m)%Q).
Proof.
  intros Hs Hnum Hne. apply sorted_map_rank in Hs.
  rewrite Forall_forall in Hnum.
  destruct tbl as [|e0 tl] eqn:Etbl; [contradiction|]. rewrite <- Etbl in *.
  assert (Hin0 : In e0 tbl) by (rewrite Etbl; left; reflexivity).
  destruct (Hnum e0 Hin0) as [x0 Hx0].
  assert (H0 : nth_error (map rate tbl) 0 = Some (Some x0))
    by (rewrite Etbl; cbn; rewrite Hx0; reflexivity).
  destruct (idxmax_defined _ _ _ H0) as [j Hj].
  destruct (idxmax_first_max _ _ Hj) as (m & Hm & Hmax).
  rewrite nth_error_map in Hm.
  destruct (nth_error tbl j) as [e|] eqn:Ej; [|discriminate Hm].
  cbn in Hm. injection Hm as Hm.
  exists j, e, m. repeat split; try assumption.
  intros e' He'. destruct (Hnum e' He') as [x Hx]. exists x. split; [exact Hx|].
  destruct (In_nth_error _ _ He') as [k Hk].
  assert (Hkx : nth_error (map rate tbl) k = Some (Some x))
    by (rewrite nth_error_map, Hk; cbn; rewrite Hx; reflexivity).
  destruct (Hmax k x Hkx) as [Hle Hlt]. split; [exact Hle|].
  intro Hr. apply Hlt. exact (sorted_position rank tbl k j e' e Hs Hk Ej Hr).
Qed.
End FirstMaximum.

Lemma fst_combine_band_column (rows : list txn) :
  map fst (combine (band_column rows) rows) = band_column rows.
Proof.
  unfold band_column. rewrite combine_map_self, map_map. reflexivity.
Qed.

(** The lines of the band table: the bands of the column in ascending
    order, each with a positive count and its rate. *)
Lemma band_groupby_agg_inv (rows : list txn) :
  map amount_band (band_groupby_agg (band_column rows) rows)
  = group_keys band_rank (band_column rows) /\
  Forall (fun e =>
            0 < total_transactions e /\
            fraud_rate_pct e
            = Some (round_dec 2 (inject_Z (fraud_count e)
                                 / inject_Z (total_transactions e) * 100)%Q))
         (band_groupby_agg (band_column rows) rows).
Proof.
  unfold band_groupby_agg. split.
  - rewrite map_map. cbn [amount_band]. apply map_id.
  - apply Forall_forall. intros e He. apply in_map_iff in He.
    destruct He as [b [<- Hb]].
    cbn [total_transactions fraud_count fraud_rate_pct].
    apply (proj1 (band_keys_In _ _)) in Hb.
    rewrite <- fst_combine_band_column in Hb.
    pose proof (get_group_nonempty band_rank band_rank_inj b _ Hb) as Hne.
    assert (Hpos : 0 < Z.of_nat (length (get_group band_rank b
                                   (combine (band_column rows) rows)))).
    { destruct (get_group band_rank b (combine (band_column rows) rows));
        [contradiction | cbn [length]; lia]. }
    split; [exact Hpos|]. rewrite fdiv_counts by lia. reflexivity.
Qed.

Lemma band_keys_sorted (col : list band) :
  StronglySorted Z.lt (map band_rank (group_keys band_rank col)).
Proof.
  pose proof (group_keys_sorted band_rank band_rank_inj col) as Hs.
  induction Hs as [|b t Ht IH Hall]; [constructor|].
  cbn [map]. constructor; [exact IH|].
  rewrite Forall_forall in *. intros x Hx. apply in_map_iff in Hx.
  destruct Hx as [b' [<- Hb']]. exact (Hall b' Hb').
Qed.

(** C6, as the code has it: on a table for which the band table and the
    hourly table are built, the peak fraud hour is the least hour of the
    hourly table whose rate is the largest one, and the highest-risk band
    the first band, by ascending amount, of the band table whose rate is
    the largest one. *)
Theorem peak_is_first_maximum (rows : list txn)
    (bs : list (band_row * Q)) (hs : list hourly_row) :
  band_summary (band_column rows) rows = inr bs ->
  hourly (hour_column rows) rows = inr hs ->
  exists (h : Z) (b : band) (mh mb : Q),
    peak_hour hs = inr h /\
    highest_band bs = inr b /\
    (exists e, In e hs /\ hour e = h /\ fraud_rate e = Some mh) /\
    (forall e, In e hs ->
       exists x, fraud_rate e = Some x /\ (x <= mh)%Q /\
         (hour e < h -> (x < mh)%Q)) /\
    (exists e, In e bs /\ amount_band (fst e) = b /\
       fraud_rate_pct (fst e) = Some mb) /\
    (forall e, In e bs ->
       exists x, fraud_rate_pct (fst e) = Some x /\ (x <= mb)%Q /\
         (band_rank (amount_band (fst e)) < band_rank b -> (x < mb)%Q)).
Proof.
  intros Hbs Hhs.
  destruct (hourly_inv rows hs Hhs) as (c0 & c1 & Hk & Hhours & Hrows).
  assert (Hrows_ne : rows <> []).
  { intro E. subst rows. discriminate Hk. }
  (* the hourly table *)
  assert (Hhs_ne : hs <> []).
  { intro E. subst hs. cbn in Hhours.
    destruct rows as [|r rows]; [contradiction|].
    assert (Hin : In (hour_of_day (Time r)) (group_keys id (hour_column (r :: rows))))
      by (apply Z_keys_In; left; reflexivity).
    rewrite <- Hhours in Hin. destruct Hin. }
  assert (Hhs_sorted : StronglySorted Z.lt (map hour hs))
    by (rewrite Hhours; apply Z_keys_sorted).
  assert (Hhs_num : Forall (fun e => exists x, fraud_rate e = Some x) hs).
  { eapply Forall_impl; [|exact Hrows]. cbv beta.
    intros e (_ & _ & _ & Hr). eexists. exact Hr. }
  destruct (idxmax_least_key hour fraud_rate hs Hhs_sorted Hhs_num Hhs_ne)
    as (jh & eh & mh & Hjh & Heh & Hmh & Hmaxh).
  (* the band table *)
  destruct (band_summary_exposure rows bs Hbs) as [Hfst _].
  destruct (band_groupby_agg_inv rows) as [Hbands Hagg].
  set (key := fun e : band_row * Q => band_rank (amount_band (fst e))).
  set (rate := fun e : band_row * Q => fraud_rate_pct (fst e)).
  assert (Hbs_sorted : StronglySorted Z.lt (map key bs)).
  { unfold key.
    rewrite <- (map_map fst (fun r => band_rank (amount_band r))), Hfst.
    rewrite <- (map_map amount_band band_rank), Hbands.
    apply band_keys_sorted. }
  assert (Hbs_num : Forall (fun e => exists x, rate e = Some x) bs).
  { apply Forall_forall. intros e He. unfold rate.
    assert (Hin : In (fst e) (band_groupby_agg (band_column rows) rows))
      by (rewrite <- Hfst; apply in_map; exact He).
    rewrite Forall_forall in Hagg. destruct (Hagg _ Hin) as [_ Hr].
    eexists. exact Hr. }
  assert (Hbs_ne : bs <> []).
  { intro E. subst bs. cbn in Hfst.
    destruct rows as [|r rows]; [contradiction|].
    assert (Hin : In (assign_risk_band (Amount r))
                     (group_keys band_rank (band_column (r :: rows))))
      by (apply band_keys_In; left; reflexivity).
    rewrite <- Hbands, <- Hfst in Hin. destruct Hin. }
  destruct (idxmax_least_key key rate bs Hbs_sorted Hbs_num Hbs_ne)
    as (jb & eb & mb & Hjb & Heb & Hmb & Hmaxb).
  exists (hour eh), (amount_band (fst eb)), mh, mb.
  split; [|split; [|split; [|split; [|split]]]].
  - unfold peak_hour. rewrite Hjh. cbn [rbind]. unfold loc. rewrite Heh. reflexivity.
  - unfold highest_band. fold rate. rewrite Hjb. cbn [rbind]. unfold loc.
    rewrite Heb. reflexivity.
  - exists eh. split; [exact (nth_error_In _ _ Heh)|]. split; [reflexivity | exact Hmh].
  - exact Hmaxh.
  - exists eb. split; [exact (nth_error_In _ _ Heb)|]. split; [reflexivity | exact Hmb].
  - exact Hmaxb.
Qed.

Lemma peak_is_first_maximum_witness :
  exists bs hs,
    band_summary (band_column four_transactions) four_transactions = inr bs /\
    hourly (hour_column four_transactions) four_transactions = inr hs /\
    exists h b, peak_hour hs = inr h /\ highest_band bs = inr b.
Proof.
  destruct (band_summary (band_column four_transactions) four_transactions)
    as [e | bs] eqn:Hbs.
  { vm_compute in Hbs. discriminate Hbs. }
  destruct (hourly (hour_column four_transactions) four_transactions)
    as [e | hs] eqn:Hhs.
  { vm_compute in Hhs. discriminate Hhs. }
  exists bs, hs. split; [reflexivity|]. split; [reflexivity|].
  destruct (peak_is_first_maximum four_transactions bs hs Hbs Hhs)
    as (h & b & _ & _ & Hh & Hb & _).
  exists h, b. split; [exact Hh | exact Hb].
Defined.

(** C6 as stated fails on a table of one legitimate transaction: the run
    prints no executive summary, hence no peak hour 0. *)
Lemma all_legitimate_no_peak_hour :
  ~ all_legitimate_peaks_at_hour_0 single_legitimate.
Proof.
  intro H.
  assert (Hlab : forall r, In r single_legitimate -> Class r = 0).
  { intros r [<- | []]. reflexivity. }
  destruct (H Hlab) as (s & Hin & _).
  assert (E : printed (main (Table single_legitimate))
              = [LibrariesLoaded; DatasetShape 1; DataStructure; MissingValueAudit])
    by reflexivity.
  rewrite E in Hin.
  destruct Hin as [Hs | [Hs | [Hs | [Hs | []]]]]; discriminate Hs.
Qed.

(** On that table line 185 of the hourly cell raises as well. *)
Lemma hourly_single_class_raises :
  hourly (hour_column single_legitimate) single_legitimate
  = inl (ValueError_length 2 3).
Proof. reflexivity. Qed.

(** ** Further properties: the band thresholds *)

Lemma Qltb_mono (a b c : Q) :
  (a <= b)%Q -> Qltb b c = true -> Qltb a c = true.
Proof.
  intros Hab Hbc. apply Qltb_lt in Hbc. apply Qltb_lt. lra.
Qed.

(** X1: the bands are ordered like the amounts: a larger amount never
    falls in a lower band. *)
Theorem assign_risk_band_monotone (a b : Q) :
  (a <= b)%Q ->
  band_rank (assign_risk_band a) <= band_rank (assign_risk_band b).
Proof.
  intro Hab. pose proof (Qltb_mono a b) as M. specialize (fun c => M c Hab).
  unfold assign_risk_band.
  destruct (Qltb b 10) eqn:B1; [rewrite (M _ B1); simpl; lia|].
  destruct (Qltb b 100) eqn:B2;
    [rewrite (M _ B2); destruct (Qltb a 10); simpl; lia|].
  destruct (Qltb b 500) eqn:B3;
    [rewrite (M _ B3); destruct (Qltb a 10), (Qltb a 100); simpl; lia|].
  destruct (Qltb b 1000) eqn:B4;
    [rewrite (M _ B4);
     destruct (Qltb a 10), (Qltb a 100), (Qltb a 500); simpl; lia|].
  destruct (Qltb b 5000) eqn:B5;
    [rewrite (M _ B5);
     destruct (Qltb a 10), (Qltb a 100), (Qltb a 500), (Qltb a 1000);
     simpl; lia|].
  destruct (Qltb a 10), (Qltb a 100), (Qltb a 500), (Qltb a 1000),
    (Qltb a 5000); simpl; lia.
Qed.

Lemma assign_risk_band_monotone_witness :
  (99.99 <= 100)%Q /\
  band_rank (assign_risk_band 99.99) <= band_rank (assign_risk_band 100).
Proof.
  assert (H : (99.99 <= 100)%Q) by (unfold Qle; simpl; lia).
  split; [exact H | exact (assign_risk_band_monotone 99.99%Q 100%Q H)].
Defined.

(** ** Further properties: the hour of day *)




(** ** Rounding *)

Lemma rint_close (x : Q) :
  (inject_Z (rint x) - x <= 1 # 2)%Q /\ (x - inject_Z (rint x) <= 1 # 2)%Q.
Proof.
  unfold rint. pose proof (Qfloor_le x) as Hlo. pose proof (Qlt_floor x) as Hhi.
  rewrite inject_Z_plus in Hhi. change (inject_Z 1) with 1%Q in Hhi.
  destruct (Qcompare (x - inject_Z (Qfloor x)) (1 # 2)) eqn:E.
  - apply Qeq_alt in E.
    destruct (Z.even (Qfloor x));
      [|rewrite inject_Z_plus; change (inject_Z 1) with 1%Q]; lra.
  - apply Qlt_alt in E. lra.
  - apply Qgt_alt in E. rewrite inject_Z_plus. change (inject_Z 1) with 1%Q. lra.
Qed.

Lemma rint_ge_int (n : Z) (x : Q) : (inject_Z n <= x)%Q -> n <= rint x.
Proof.
  intro H. apply Qfloor_resp_le in H. rewrite Qfloor_Z in H.
  unfold rint. destruct (Qcompare _ _); [destruct (Z.even _)| |]; lia.
Qed.

Lemma rint_le_int (n : Z) (x : Q) : (x <= inject_Z n)%Q -> rint x <= n.
Proof.
  intro H. pose proof (Qfloor_resp_le _ _ H) as Hf. rewrite Qfloor_Z in Hf.
  destruct (Z.eq_dec (Qfloor x) n) as [E | E].
  - pose proof (Qfloor_le x) as Hlo. rewrite E in Hlo.
    assert (Hlt : (x - inject_Z n < 1 # 2)%Q) by lra.
    apply (proj1 (Qlt_alt _ _)) in Hlt. unfold rint. cbv zeta.
    rewrite E, Hlt. lia.
  - unfold rint. destruct (Qcompare _ _); [destruct (Z.even _)| |]; lia.
Qed.

Lemma pow10_pos (d : nat) : (0 < inject_Z (10 ^ Z.of_nat d))%Q.
Proof.
  assert (H : 0 < 10 ^ Z.of_nat d) by (apply Z.pow_pos_nonneg; lia).
  unfold Qlt, inject_Z. cbn [Qnum Qden]. lia.
Qed.

(** Rounding keeps a value between two integers between them. *)
Lemma round_dec_between (d : nat) (lo hi : Z) (x : Q) :
  (inject_Z lo <= x)%Q -> (x <= inject_Z hi)%Q ->
  (inject_Z lo <= round_dec d x)%Q /\ (round_dec d x <= inject_Z hi)%Q.
Proof.
  intros Hlo Hhi. unfold round_dec.
  pose proof (pow10_pos d) as HP. set (P := 10 ^ Z.of_nat d) in *.
  split.
  - apply Qle_shift_div_l; [exact HP|]. rewrite <- inject_Z_mult.
    rewrite <- Zle_Qle. apply rint_ge_int. rewrite inject_Z_mult.
    apply Qmult_le_compat_r; [exact Hlo | lra].
  - apply Qle_shift_div_r; [exact HP|]. rewrite <- inject_Z_mult.
    rewrite <- Zle_Qle. apply rint_le_int. rewrite inject_Z_mult.
    apply Qmult_le_compat_r; [exact Hhi | lra].
Qed.

(** Rounding to [d] decimals moves a value by half a unit of the last
    decimal at most. *)
Lemma round_dec_close (d : nat) (x : Q) :
  (x - (1 # 2) / inject_Z (10 ^ Z.of_nat d) <= round_dec d x)%Q /\
  (round_dec d x <= x + (1 # 2) / inject_Z (10 ^ Z.of_nat d))%Q.
Proof.
  unfold round_dec. pose proof (pow10_pos d) as HP.
  set (P := inject_Z (10 ^ Z.of_nat d)) in *.
  destruct (rint_close (x * P)) as [H1 H2].
  set (r := inject_Z (rint (x * P))) in *.
  split.
  - apply Qle_shift_div_l; [exact HP|].
    assert (E : ((x - (1 # 2) / P) * P == x * P - (1 # 2))%Q) by (field; lra).
    rewrite E. lra.
  - apply Qle_shift_div_r; [exact HP|].
    assert (E : ((x + (1 # 2) / P) * P == x * P + (1 # 2))%Q) by (field; lra).
    rewrite E. lra.
Qed.

(** ** Further properties: the class table *)

Lemma label_counts_add_up (classes : list Z) :
  Forall (fun c => c = 0 \/ c = 1) classes ->
  Z.of_nat (length (filter (Z.eqb 0) classes))
  + Z.of_nat (length (filter (Z.eqb 1) classes))
  = Z.of_nat (length classes).
Proof.
  induction 1 as [|c classes Hc _ IH]; [reflexivity|].
  cbn [filter]. destruct Hc as [-> | ->]; cbn [Z.eqb Pos.eqb length]; lia.
Qed.

Lemma fraud_summary_table (classes : list Z) :
  In 0 classes -> In 1 classes ->
  fraud_summary classes
  = inr (mk_class_table
           (Z.of_nat (length (filter (Z.eqb 0) classes)))
           (Z.of_nat (length (filter (Z.eqb 1) classes)))
           (round_dec 4 (inject_Z (Z.of_nat (length (filter (Z.eqb 0) classes)))
                         / inject_Z (Z.of_nat (length classes)) * 100)%Q)
           (round_dec 4 (inject_Z (Z.of_nat (length (filter (Z.eqb 1) classes)))
                         / inject_Z (Z.of_nat (length classes)) * 100)%Q)).
Proof.
  intros H0 H1. unfold fraud_summary.
  rewrite (value_counts_get_present _ _ H0), (value_counts_get_present _ _ H1).
  rewrite (value_counts_pct_get_present _ _ H0), (value_counts_pct_get_present _ _ H1).
  reflexivity.
Qed.

Lemma valid_labels_classes (rows : list txn) :
  Forall (fun r => Class r = 0 \/ Class r = 1) rows ->
  Forall (fun c => c = 0 \/ c = 1) (map Class rows).
Proof.
  intro H. apply Forall_forall. intros c Hc. apply in_map_iff in Hc.
  destruct Hc as [r [<- Hr]]. rewrite Forall_forall in H. exact (H r Hr).
Qed.

(** X3: on a table with labels 0 and 1, both present, the class table is
    built; its two counts are positive and add up to the number of
    lines, each percentage lies in [0,100], and the two rounded
    percentages add up to 100 within one unit of the fourth decimal. *)
Theorem fraud_summary_balance (rows : list txn) :
  Forall (fun r => Class r = 0 \/ Class r = 1) rows ->
  In 0 (map Class rows) -> In 1 (map Class rows) ->
  exists t, fraud_summary (map Class rows) = inr t /\
    0 < legitimate_count t /\ 0 < fraudulent_count t /\
    legitimate_count t + fraudulent_count t = Z.of_nat (length rows) /\
    (0 <= legitimate_pct t <= 100)%Q /\
    (0 <= fraudulent_pct t <= 100)%Q /\
    (100 - (1 # 10000) <= legitimate_pct t + fraudulent_pct t)%Q /\
    (legitimate_pct t + fraudulent_pct t <= 100 + (1 # 10000))%Q.
Proof.
  intros Hlab H0 H1. eexists. split; [apply fraud_summary_table; assumption|].
  cbn [legitimate_count fraudulent_count legitimate_pct fraudulent_pct].
  pose proof (label_counts_add_up _ (valid_labels_classes rows Hlab)) as Hsum.
  rewrite length_map in *.
  pose proof (filter_length_pos (Z.eqb 0) (map Class rows) 0 H0 eq_refl) as Hp0.
  pose proof (filter_length_pos (Z.eqb 1) (map Class rows) 1 H1 eq_refl) as Hp1.
  set (c0 := Z.of_nat (length (filter (Z.eqb 0) (map Class rows)))) in *.
  set (c1 := Z.of_nat (length (filter (Z.eqb 1) (map Class rows)))) in *.
  set (n := Z.of_nat (length rows)) in *.
  assert (Hn : (0 < inject_Z n)%Q)
    by (unfold Qlt, inject_Z; cbn [Qnum Qden]; lia).
  assert (Hc0 : (0 <= inject_Z c0)%Q)
    by (unfold Qle, inject_Z; cbn [Qnum Qden]; lia).
  assert (Hc1 : (0 <= inject_Z c1)%Q)
    by (unfold Qle, inject_Z; cbn [Qnum Qden]; lia).
  assert (Hadd : (inject_Z c0 + inject_Z c1 == inject_Z n)%Q)
    by (rewrite <- inject_Z_plus, Hsum; reflexivity).
  set (x0 := (inject_Z c0 / inject_Z n * 100)%Q).
  set (x1 := (inject_Z c1 / inject_Z n * 100)%Q).
  assert (Hx : (x0 + x1 == 100)%Q).
  { unfold x0, x1.
    assert (E : (inject_Z c0 / inject_Z n * 100 + inject_Z c1 / inject_Z n * 100
                 == (inject_Z c0 + inject_Z c1) / inject_Z n * 100)%Q)
      by (field; lra).
    rewrite E, Hadd. field. lra. }
  assert (Hx0 : (0 <= x0)%Q).
  { unfold x0. apply Qmult_le_0_compat; [|lra].
    apply Qle_shift_div_l; [exact Hn | lra]. }
  assert (Hx1 : (0 <= x1)%Q).
  { unfold x1. apply Qmult_le_0_compat; [|lra].
    apply Qle_shift_div_l; [exact Hn | lra]. }
  assert (Hb0 : (inject_Z 0 <= x0)%Q /\ (x0 <= inject_Z 100)%Q)
    by (change (inject_Z 0) with 0%Q; change (inject_Z 100) with 100%Q; lra).
  assert (Hb1 : (inject_Z 0 <= x1)%Q /\ (x1 <= inject_Z 100)%Q)
    by (change (inject_Z 0) with 0%Q; change (inject_Z 100) with 100%Q; lra).
  destruct (round_dec_between 4 0 100 x0 (proj1 Hb0) (proj2 Hb0)) as [Ha0 Ha0'].
  destruct (round_dec_between 4 0 100 x1 (proj1 Hb1) (proj2 Hb1)) as [Ha1 Ha1'].
  change (inject_Z 0) with 0%Q in *. change (inject_Z 100) with 100%Q in *.
  destruct (round_dec_close 4 x0) as [Hl0 Hu0].
  destruct (round_dec_close 4 x1) as [Hl1 Hu1].
  assert (Hhalf : ((1 # 2) / inject_Z (10 ^ Z.of_nat 4) == 1 # 20000)%Q)
    by reflexivity.
  rewrite Hhalf in Hl0, Hu0, Hl1, Hu1.
  repeat split; try assumption; lra.
Qed.

Lemma fraud_summary_balance_witness :
  Forall (fun r => Class r = 0 \/ Class r = 1) four_transactions /\
  In 0 (map Class four_transactions) /\
  In 1 (map Class four_transactions) /\
  exists t, fraud_summary (map Class four_transactions) = inr t /\
    legitimate_count t + fraudulent_count t = 4.
Proof.
  assert (Hlab : Forall (fun r => Class r = 0 \/ Class r = 1) four_transactions).
  { unfold four_transactions.
    repeat (apply Forall_cons; [simpl; auto|]). apply Forall_nil. }
  assert (H0 : In 0 (map Class four_transactions)) by (left; reflexivity).
  assert (H1 : In 1 (map Class four_transactions)) by (right; left; reflexivity).
  split; [exact Hlab|]. split; [exact H0|]. split; [exact H1|].
  destruct (fraud_summary_balance four_transactions Hlab H0 H1)
    as (t & Ht & _ & _ & Hsum & _).
  exists t. split; [exact Ht | exact Hsum].
Defined.

(** ** Further properties: the amount statistics *)

Lemma fdiv_counts_nonzero (x : Q) (d : Z) :
  d <> 0 -> fdiv x (inject_Z d) <> None.
Proof.
  intro Hd. unfold fdiv, Qeq_bool, inject_Z. cbn [Qnum Qden].
  rewrite Z.mul_1_r. cbn [Z.mul].
  destruct d; [contradiction | discriminate | discriminate].
Qed.

Lemma mean_none (l : list Q) : mean l = None <-> l = [].
Proof.
  unfold mean. split.
  - destruct l as [|x l]; [reflexivity|].
    intro H. exfalso. revert H. apply fdiv_counts_nonzero.
    cbn [length]. lia.
  - intros ->. reflexivity.
Qed.

Lemma amounts_of_class_nil (c : Z) (rows : list txn) :
  amounts_of_class c rows = [] <-> forall r, In r rows -> Class r <> c.
Proof.
  unfold amounts_of_class. split.
  - intros H r Hr Hc.
    assert (Hin : In (Amount r) (map Amount (filter (fun r => Class r =? c) rows))).
    { apply in_map. apply filter_In. split; [exact Hr | apply Z.eqb_eq; exact Hc]. }
    rewrite H in Hin. destruct Hin.
  - intro H. induction rows as [|r rows IH]; [reflexivity|].
    cbn [filter]. destruct (Class r =? c) eqn:E.
    + apply Z.eqb_eq in E. exfalso. exact (H r (or_introl eq_refl) E).
    + apply IH. intros r' Hr'. apply H. right. exact Hr'.
Qed.

Lemma fround_none (d : nat) (x : option Q) : fround d x = None <-> x = None.
Proof. destruct x; simpl; split; intro H; try discriminate H; reflexivity. Qed.

Lemma partition_lengths (rows : list txn) :
  Forall (fun r => Class r = 0 \/ Class r = 1) rows ->
  (length (amounts_of_class 0 rows) + length (amounts_of_class 1 rows))%nat
  = length rows.
Proof.
  unfold amounts_of_class. rewrite !length_map.
  induction 1 as [|r rows Hr _ IH]; [reflexivity|].
  cbn [filter]. destruct Hr as [-> | ->]; cbn [Z.eqb Pos.eqb length]; lia.
Qed.

(** X4: the amount statistics never raise on an empty partition: the
    mean of the fraudulent (legitimate) amounts is NaN exactly when no line
    has label 1 (label 0); on labels 0 and 1 the two partitions share out
    the lines of the table. *)
Theorem amount_stats_partitions (rows : list txn) :
  (fraud_mean (amount_stats rows) = None
   <-> forall r, In r rows -> Class r <> 1) /\
  (legit_mean (amount_stats rows) = None
   <-> forall r, In r rows -> Class r <> 0) /\
  (Forall (fun r => Class r = 0 \/ Class r = 1) rows ->
   (legit_len (amount_stats rows) + fraud_len (amount_stats rows))%nat
   = length rows).
Proof.
  unfold amount_stats. cbn [fraud_mean legit_mean legit_len fraud_len].
  split; [|split].
  - rewrite fround_none, mean_none. apply amounts_of_class_nil.
  - rewrite fround_none, mean_none. apply amounts_of_class_nil.
  - apply partition_lengths.
Qed.

Lemma amount_stats_partitions_witness :
  Forall (fun r => Class r = 0 \/ Class r = 1) four_transactions /\
  (legit_len (amount_stats four_transactions)
   + fraud_len (amount_stats four_transactions))%nat = 4%nat.
Proof.
  assert (Hlab : Forall (fun r => Class r = 0 \/ Class r = 1) four_transactions).
  { unfold four_transactions.
    repeat (apply Forall_cons; [simpl; auto|]). apply Forall_nil. }
  split; [exact Hlab|].
  exact (proj2 (proj2 (amount_stats_partitions four_transactions)) Hlab).
Defined.

(** ** Further properties: the band table *)

Lemma band_group_filter (rows : list txn) (b : band) :
  get_group band_rank b (combine (band_column rows) rows)
  = filter (fun r => band_eqb (assign_risk_band (Amount r)) b) rows.
Proof.
  unfold band_column, get_group. rewrite combine_map_self.
  induction rows as [|r rows IH]; [reflexivity|].
  cbn [map filter fst]. unfold band_eqb, key_eqb in *.
  destruct (band_rank (assign_risk_band (Amount r)) =? band_rank b);
    cbn [map snd]; rewrite IH; reflexivity.
Qed.

Lemma band_line_contents (rows : list txn) (e : band_row) :
  In e (band_groupby_agg (band_column rows) rows) ->
  total_transactions e
  = Z.of_nat (length (filter (fun r => band_eqb (assign_risk_band (Amount r))
                                                (amount_band e)) rows)) /\
  fraud_count e
  = Zsum (map Class (filter (fun r => band_eqb (assign_risk_band (Amount r))
                                               (amount_band e)) rows)).
Proof.
  intro He. unfold band_groupby_agg in He. apply in_map_iff in He.
  destruct He as [b [<- _]]. cbn [total_transactions fraud_count amount_band].
  rewrite band_group_filter. split; reflexivity.
Qed.

(** X5: the band table has a line exactly for each band that holds a
    transaction, an empty band has no line; the lines come by ascending
    band, and a line holds the number of transactions of its band, which
    is positive, and the sum of their labels. *)
Theorem band_table_lines (rows : list txn) :
  StronglySorted Z.lt
    (map (fun e => band_rank (amount_band e))
         (band_groupby_agg (band_column rows) rows)) /\
  (forall b, In b (map amount_band (band_groupby_agg (band_column rows) rows))
             <-> exists r, In r rows /\ assign_risk_band (Amount r) = b) /\
  Forall (fun e =>
            0 < total_transactions e /\
            total_transactions e
            = Z.of_nat (length (filter (fun r => band_eqb (assign_risk_band (Amount r))
                                                          (amount_band e)) rows)) /\
            fraud_count e
            = Zsum (map Class (filter (fun r => band_eqb (assign_risk_band (Amount r))
                                                         (amount_band e)) rows)))
         (band_groupby_agg (band_column rows) rows).
Proof.
  destruct (band_groupby_agg_inv rows) as [Hbands Hagg].
  split; [|split].
  - rewrite <- (map_map amount_band band_rank), Hbands. apply band_keys_sorted.
  - intro b. rewrite Hbands, band_keys_In. unfold band_column.
    rewrite in_map_iff. split; intros [r [Ha Hb]]; exists r; split; assumption.
  - rewrite Forall_forall in *. intros e He.
    destruct (Hagg e He) as [Hpos _]. split; [exact Hpos|].
    unfold band_groupby_agg in He. apply in_map_iff in He.
    destruct He as [b [<- _]]. cbn [total_transactions fraud_count amount_band].
    rewrite band_group_filter. split; reflexivity.
Qed.

(** ** Sums of amounts over groups *)

Lemma Qsum_group_skip {K R : Type} (rank : K -> Z) (w : R -> Q)
    (k0 : K) (r0 : R) (kr : list (K * R)) (ks : list K) :
  (forall k, In k ks -> rank k0 <> rank k) ->
  Qsum (map (fun k => Qsum (map w (get_group rank k ((k0, r0) :: kr)))) ks)
  = Qsum (map (fun k => Qsum (map w (get_group rank k kr))) ks).
Proof.
  induction ks as [|k ks IH]; intro Hne; [reflexivity|].
  cbn [map Qsum fold_right]. fold (Qsum (map (fun k => Qsum (map w (get_group rank k ((k0, r0) :: kr)))) ks)).
  fold (Qsum (map (fun k => Qsum (map w (get_group rank k kr))) ks)).
  rewrite IH by (intros k' Hk'; apply Hne; right; exact Hk').
  unfold get_group at 1. cbn [filter fst]. unfold key_eqb.
  destruct (rank k0 =? rank k) eqn:E.
  - apply Z.eqb_eq in E. exfalso. exact (Hne k (or_introl eq_refl) E).
  - reflexivity.
Qed.

Lemma Qsum_groups {K R : Type} (rank : K -> Z) (w : R -> Q)
    (kr : list (K * R)) (ks : list K) :
  (forall a b, rank a = rank b -> a = b) ->
  NoDup ks -> (forall p, In p kr -> In (fst p) ks) ->
  (Qsum (map (fun k => Qsum (map w (get_group rank k kr))) ks)
   == Qsum (map w (map snd kr)))%Q.
Proof.
  intros Hinj Hnd. induction kr as [|[k0 r0] kr IH]; intro Hin.
  - unfold get_group. cbn [filter map Qsum fold_right].
    clear. induction ks as [|k ks IH]; [reflexivity|].
    cbn [map Qsum fold_right] in *. rewrite IH. reflexivity.
  - cbn [map snd Qsum fold_right]. fold (Qsum (map w (map snd kr))).
    rewrite <- IH by (intros p Hp; apply Hin; right; exact Hp).
    pose proof (Hin (k0, r0) (or_introl eq_refl)) as Hk0. cbn [fst] in Hk0.
    clear IH Hin. induction Hnd as [|k ks Hk Hnd IHks]; [destruct Hk0|].
    cbn [map Qsum fold_right].
    fold (Qsum (map (fun k => Qsum (map w (get_group rank k ((k0, r0) :: kr)))) ks)).
    fold (Qsum (map (fun k => Qsum (map w (get_group rank k kr))) ks)).
    destruct (Z.eq_dec (rank k0) (rank k)) as [E | E].
    + apply Hinj in E. subst k.
      rewrite Qsum_group_skip.
      * unfold get_group at 1. cbn [filter fst]. unfold key_eqb.
        rewrite Z.eqb_refl. cbn [map snd Qsum fold_right].
        fold (Qsum (map w (get_group rank k0 kr))).
        unfold get_group, key_eqb, Qsum. ring.
      * intros k Hk' Hr. apply Hinj in Hr. subst k. contradiction.
    + destruct Hk0 as [-> | Hk0]; [contradiction E; reflexivity|].
      rewrite (IHks Hk0).
      unfold get_group at 1. cbn [filter fst]. unfold key_eqb.
      apply Z.eqb_neq in E. rewrite E.
      unfold get_group, key_eqb, Qsum. ring.
Qed.

(** X6: the total_amount of the lines of the band table add up to the
    sum of the Amount column. *)
Theorem band_total_amount_adds_up (rows : list txn) :
  (Qsum (map total_amount (band_groupby_agg (band_column rows) rows))
   == Qsum (map Amount rows))%Q.
Proof.
  unfold band_groupby_agg. rewrite map_map. cbn [total_amount].
  rewrite (Qsum_groups band_rank Amount _ _ band_rank_inj
             (group_keys_NoDup band_rank band_rank_inj (band_column rows))
             (band_keyed_in_keys rows)).
  rewrite snd_combine_band_column. reflexivity.
Qed.

Lemma band_summary_lengths (rows : list txn) (t : list (band_row * Q)) :
  band_summary (band_column rows) rows = inr t ->
  length (fraud_exposure_values (band_column rows) rows)
  = length (band_groupby_agg (band_column rows) rows) /\
  t = combine (band_groupby_agg (band_column rows) rows)
              (fraud_exposure_values (band_column rows) rows).
Proof.
  unfold band_summary, assign_column.
  destruct (Nat.eqb_spec (length (fraud_exposure_values (band_column rows) rows))
              (length (band_groupby_agg (band_column rows) rows))) as [Hlen | _];
    [|discriminate].
  intro Ht. injection Ht as <-. split; [exact Hlen | reflexivity].
Qed.

(** X7: line 158 goes through exactly on the tables in which every band
    that holds a transaction holds a fraudulent one. *)
Theorem band_summary_defined_iff (rows : list txn) :
  (exists t, band_summary (band_column rows) rows = inr t) <->
  (forall r, In r rows ->
     exists r', In r' rows /\ Class r' = 1 /\
       assign_risk_band (Amount r') = assign_risk_band (Amount r)).
Proof.
  split; [|apply band_summary_succeeds].
  intros [t Ht] r Hr.
  destruct (band_summary_lengths rows t Ht) as [Hlen _].
  pose proof (fraud_keys_same rows Hlen) as Hk.
  apply fraud_keys_In. apply (proj1 (band_keys_In _ _)). rewrite Hk.
  apply band_keys_In. unfold band_column.
  exact (in_map (fun x => assign_risk_band (Amount x)) rows r Hr).
Qed.

Lemma map_snd_combine {A B : Type} (l1 : list A) (l2 : list B) :
  length l2 = length l1 -> map snd (combine l1 l2) = l2.
Proof.
  revert l2. induction l1 as [|a l1 IH]; intros [|b l2] H;
    try reflexivity; try discriminate H.
  cbn [combine map snd]. rewrite IH; [reflexivity|].
  cbn [length] in H. lia.
Qed.

Lemma fraud_only_rows (rows : list txn) :
  map snd (filter (fun p => Class (snd p) =? 1) (combine (band_column rows) rows))
  = filter (fun r => Class r =? 1) rows.
Proof.
  unfold band_column. rewrite combine_map_self.
  induction rows as [|r rows IH]; [reflexivity|].
  cbn [map filter snd]. destruct (Class r =? 1); cbn [map snd]; rewrite IH; reflexivity.
Qed.

(** X8: where line 158 goes through, the exposure of a line is the sum of
    the amounts of the fraudulent transactions of its band, and the
    exposures of the lines add up to the sum of the amounts of all
    fraudulent transactions. *)
Theorem band_exposure_adds_up (rows : list txn) (t : list (band_row * Q)) :
  band_summary (band_column rows) rows = inr t ->
  Forall (fun e =>
            fraud_exposure e
            = Qsum (map Amount
                      (filter (fun r => (Class r =? 1)
                                 && band_eqb (assign_risk_band (Amount r))
                                             (amount_band (fst e))) rows))) t /\
  (Qsum (map fraud_exposure t) == Qsum (amounts_of_class 1 rows))%Q.
Proof.
  intro Ht. split; [exact (proj2 (band_summary_exposure rows t Ht))|].
  destruct (band_summary_lengths rows t Ht) as [Hlen ->].
  change (map fraud_exposure) with (@map (band_row * Q) Q snd).
  rewrite (map_snd_combine _ _ Hlen).
  unfold fraud_exposure_values.
  rewrite (Qsum_groups band_rank Amount _ _ band_rank_inj
             (group_keys_NoDup band_rank band_rank_inj _)).
  - rewrite fraud_only_rows. reflexivity.
  - intros p Hp. apply band_keys_In. apply in_map. exact Hp.
Qed.

Lemma band_exposure_adds_up_witness :
  exists t,
    band_summary (band_column four_transactions) four_transactions = inr t /\
    (Qsum (map fraud_exposure t) == Qsum (amounts_of_class 1 four_transactions))%Q.
Proof.
  destruct (band_summary (band_column four_transactions) four_transactions)
    as [e | t] eqn:Ht.
  { vm_compute in Ht. discriminate Ht. }
  exists t. split; [reflexivity|].
  exact (proj2 (band_exposure_adds_up four_transactions t Ht)).
Defined.

Lemma Qsum_nonneg (l : list Q) : Forall (fun x => (0 <= x)%Q) l -> (0 <= Qsum l)%Q.
Proof.
  induction 1 as [|x l Hx _ IH]; [cbn; lra|].
  cbn [Qsum fold_right]. fold (Qsum l). lra.
Qed.

Lemma Qsum_filter_le (P S : txn -> bool) (rows : list txn) :
  Forall (fun r => (0 <= Amount r)%Q) rows ->
  (0 <= Qsum (map Amount (filter (fun r => P r && S r) rows)))%Q /\
  (Qsum (map Amount (filter (fun r => P r && S r) rows))
   <= Qsum (map Amount (filter S rows)))%Q.
Proof.
  induction 1 as [|r rows Hr _ [IH0 IH]]; [cbn; lra|].
  cbn [filter]. destruct (S r); [destruct (P r)|rewrite andb_false_r];
    cbn [andb map Qsum fold_right];
    fold (Qsum (map Amount (filter (fun r => P r && S r) rows)));
    fold (Qsum (map Amount (filter S rows))); lra.
Qed.

(** X9: on amounts that are not negative, where line 158 goes through,
    the exposure of a line lies between 0 and the total amount of its
    band. *)
Theorem band_exposure_within_amount (rows : list txn) (t : list (band_row * Q)) :
  Forall (fun r => (0 <= Amount r)%Q) rows ->
  band_summary (band_column rows) rows = inr t ->
  Forall (fun e => (0 <= fraud_exposure e)%Q
                   /\ (fraud_exposure e <= total_amount (fst e))%Q) t.
Proof.
  intros Hpos Ht. destruct (band_summary_exposure rows t Ht) as [Hfst Hexp].
  rewrite Forall_forall in *. intros e He. rewrite (Hexp e He).
  assert (Hin : In (fst e) (band_groupby_agg (band_column rows) rows))
    by (rewrite <- Hfst; apply in_map; exact He).
  unfold band_groupby_agg in Hin. apply in_map_iff in Hin.
  destruct Hin as [b [Hb _]]. rewrite <- Hb. cbn [total_amount amount_band].
  rewrite band_group_filter.
  apply (Qsum_filter_le (fun r => Class r =? 1)
           (fun r => band_eqb (assign_risk_band (Amount r)) b)).
  apply Forall_forall. exact Hpos.
Qed.

Lemma band_exposure_within_amount_witness :
  Forall (fun r => (0 <= Amount r)%Q) four_transactions /\
  exists t,
    band_summary (band_column four_transactions) four_transactions = inr t /\
    Forall (fun e => (0 <= fraud_exposure e)%Q
                     /\ (fraud_exposure e <= total_amount (fst e))%Q) t.
Proof.
  assert (Hpos : Forall (fun r => (0 <= Amount r)%Q) four_transactions).
  { unfold four_transactions.
    repeat (apply Forall_cons; [unfold Qle; simpl; lia|]). apply Forall_nil. }
  split; [exact Hpos|].
  destruct (band_summary (band_column four_transactions) four_transactions)
    as [e | t] eqn:Ht.
  { vm_compute in Ht. discriminate Ht. }
  exists t. split; [reflexivity|].
  exact (band_exposure_within_amount four_transactions t Hpos Ht).
Defined.

(** ** Further properties: the rates *)

Lemma ratio_pct_bounds (a b : Z) :
  0 <= a <= b -> 0 < b ->
  (inject_Z 0 <= inject_Z a / inject_Z b * 100)%Q /\
  (inject_Z a / inject_Z b * 100 <= inject_Z 100)%Q.
Proof.
  intros Hab Hb.
  assert (HbQ : (0 < inject_Z b)%Q)
    by (unfold Qlt, inject_Z; cbn [Qnum Qden]; lia).
  assert (HaQ : (0 <= inject_Z a)%Q)
    by (unfold Qle, inject_Z; cbn [Qnum Qden]; lia).
  assert (HabQ : (inject_Z a <= inject_Z b)%Q) by (rewrite <- Zle_Qle; lia).
  assert (H0 : (0 <= inject_Z a / inject_Z b)%Q)
    by (apply Qle_shift_div_l; [exact HbQ | lra]).
  assert (H1 : (inject_Z a / inject_Z b <= 1)%Q)
    by (apply Qle_shift_div_r; [exact HbQ | lra]).
  change (inject_Z 0) with 0%Q. change (inject_Z 100) with 100%Q.
  set (y := (inject_Z a / inject_Z b)%Q) in *. split; lra.
Qed.

Lemma Zsum_labels_bounds (l : list Z) :
  Forall (fun c => c = 0 \/ c = 1) l -> 0 <= Zsum l <= Z.of_nat (length l).
Proof.
  induction 1 as [|c l Hc _ IH]; [cbn; lia|].
  unfold Zsum in *. cbn [fold_right length]. rewrite Nat2Z.inj_succ.
  destruct Hc as [-> | ->]; lia.
Qed.

(** X10: on labels 0 and 1 the fraud count of a line of the band table
    lies between 0 and its number of transactions, and its rate is a
    number between 0 and 100. *)
Theorem band_rate_in_range (rows : list txn) :
  Forall (fun r => Class r = 0 \/ Class r = 1) rows ->
  Forall (fun e =>
            0 <= fraud_count e <= total_transactions e /\
            exists x, fraud_rate_pct e = Some x /\ (0 <= x <= 100)%Q)
         (band_groupby_agg (band_column rows) rows).
Proof.
  intro Hlab. destruct (band_groupby_agg_inv rows) as [_ Hagg].
  rewrite Forall_forall in *. intros e He.
  destruct (Hagg e He) as [Hpos Hrate].
  destruct (band_line_contents rows e He) as [Htot Hfc].
  assert (Hb : 0 <= fraud_count e <= total_transactions e).
  { rewrite Hfc, Htot. rewrite <- (length_map Class).
    apply Zsum_labels_bounds. apply Forall_forall. intros c Hc.
    apply in_map_iff in Hc. destruct Hc as [r [<- Hr]].
    apply filter_In in Hr. exact (Hlab r (proj1 Hr)). }
  split; [exact Hb|]. eexists. split; [exact Hrate|].
  destruct (ratio_pct_bounds _ _ Hb Hpos) as [H0 H1].
  destruct (round_dec_between 2 0 100 _ H0 H1) as [Ha Hb'].
  split; [exact Ha | exact Hb'].
Qed.

Lemma band_rate_in_range_witness :
  Forall (fun r => Class r = 0 \/ Class r = 1) four_transactions /\
  Forall (fun e => 0 <= fraud_count e <= total_transactions e)
         (band_groupby_agg (band_column four_transactions) four_transactions).
Proof.
  assert (Hlab : Forall (fun r => Class r = 0 \/ Class r = 1) four_transactions).
  { unfold four_transactions.
    repeat (apply Forall_cons; [simpl; auto|]). apply Forall_nil. }
  split; [exact Hlab|].
  eapply Forall_impl; [|exact (band_rate_in_range four_transactions Hlab)].
  cbv beta. intros e [H _]. exact H.
Defined.

(** ** Further properties: the hourly table *)

Lemma hour_class_count_nonneg (rows : list txn) (h c : Z) :
  0 <= hour_class_count rows h c.
Proof. unfold hour_class_count. lia. Qed.

(** X11: where the hourly table is built, the two counts of a line are
    not negative and its rate is a number between 0 and 100. *)
Theorem hourly_rate_in_range (rows : list txn) (t : list hourly_row) :
  hourly (hour_column rows) rows = inr t ->
  Forall (fun e =>
            0 <= legitimate e /\ 0 <= fraudulent e /\
            exists x, fraud_rate e = Some x /\ (0 <= x <= 100)%Q) t.
Proof.
  intro Ht. destruct (hourly_inv rows t Ht) as (c0 & c1 & _ & _ & Hrows).
  eapply Forall_impl; [|exact Hrows]. cbv beta.
  intros e (Hl & Hf & Hpos & Hrate).
  pose proof (hour_class_count_nonneg rows (hour e) c0) as Hl0.
  pose proof (hour_class_count_nonneg rows (hour e) c1) as Hf0.
  rewrite <- Hl in Hl0. rewrite <- Hf in Hf0.
  split; [exact Hl0|]. split; [exact Hf0|].
  eexists. split; [exact Hrate|].
  assert (Hb : 0 <= fraudulent e <= legitimate e + fraudulent e) by lia.
  destruct (ratio_pct_bounds _ _ Hb Hpos) as [H0 H1].
  destruct (round_dec_between 4 0 100 _ H0 H1) as [Ha Hb'].
  split; [exact Ha | exact Hb'].
Qed.

Lemma hourly_rate_in_range_witness :
  exists t,
    hourly (hour_column four_transactions) four_transactions = inr t /\
    Forall (fun e => 0 <= legitimate e /\ 0 <= fraudulent e) t.
Proof.
  destruct (hourly (hour_column four_transactions) four_transactions)
    as [e | t] eqn:Ht.
  { vm_compute in Ht. discriminate Ht. }
  exists t. split; [reflexivity|].
  eapply Forall_impl; [|exact (hourly_rate_in_range four_transactions t Ht)].
  cbv beta. intros e (H1 & H2 & _). split; assumption.
Defined.

Lemma Zsum_key_counts {A : Type} (f : A -> Z) (l : list A) (ks : list Z) :
  NoDup ks -> (forall a, In a l -> In (f a) ks) ->
  Zsum (map (fun k => Z.of_nat (length (filter (fun a => f a =? k) l))) ks)
  = Z.of_nat (length l).
Proof.
  intros Hnd Hin.
  assert (Hkeys : forall p, In p (map (fun a => (f a, a)) l) -> In (fst p) ks).
  { intros p Hp. apply in_map_iff in Hp. destruct Hp as [a [<- Ha]].
    cbn [fst]. exact (Hin a Ha). }
  pose proof (Zsum_groups id id_inj (fun _ : A => 1)
                (map (fun a => (f a, a)) l) ks Hnd Hkeys) as H.
  rewrite Zsum_ones, !length_map in H. rewrite <- H.
  apply Zsum_map_ext. intros k _. rewrite Zsum_ones. f_equal.
  unfold get_group. rewrite length_map.
  clear. induction l as [|a l IH]; [reflexivity|].
  cbn [map filter fst]. unfold key_eqb, id.
  destruct (f a =? k); cbn [length]; rewrite IH; reflexivity.
Qed.

Lemma two_class_counts (rows : list txn) (c0 c1 h : Z) :
  c0 <> c1 ->
  (forall r, In r rows -> Class r = c0 \/ Class r = c1) ->
  hour_class_count rows h c0 + hour_class_count rows h c1
  = Z.of_nat (length (filter (fun r => hour_of_day (Time r) =? h) rows)).
Proof.
  intros Hne. unfold hour_class_count.
  induction rows as [|r rows IH]; intro Hcl; [reflexivity|].
  specialize (IH (fun r' Hr' => Hcl r' (or_intror Hr'))).
  cbn [filter]. destruct (hour_of_day (Time r) =? h); cbn [andb].
  - destruct (Hcl r (or_introl eq_refl)) as [E | E]; rewrite E, Z.eqb_refl.
    + replace (c0 =? c1) with false by (symmetry; apply Z.eqb_neq; exact Hne).
      cbn [length]. lia.
    + replace (c1 =? c0) with false
        by (symmetry; apply Z.eqb_neq; intro; apply Hne; congruence).
      cbn [length]. lia.
  - exact IH.
Qed.

Lemma keys_in_range_length (ks : list Z) :
  NoDup ks -> (forall k, In k ks -> 0 <= k <= 23) -> (length ks <= 24)%nat.
Proof.
  intros Hnd Hr.
  assert (Hincl : incl ks (map Z.of_nat (seq 0 24))).
  { intros k Hk. apply in_map_iff. exists (Z.to_nat k).
    specialize (Hr k Hk). split; [lia|]. apply in_seq. lia. }
  pose proof (NoDup_incl_length Hnd Hincl) as H.
  rewrite length_map, length_seq in H. exact H.
Qed.

(** X12: where the hourly table is built, its hours lie in 0..23, it has
    24 lines at most, and the counts of its lines add up to the number
    of lines of the input table. *)
Theorem hourly_counts_add_up (rows : list txn) (t : list hourly_row) :
  hourly (hour_column rows) rows = inr t ->
  Forall (fun e => 0 <= hour e <= 23) t /\
  (length t <= 24)%nat /\
  Zsum (map (fun e => legitimate e + fraudulent e) t) = Z.of_nat (length rows).
Proof.
  intro Ht. destruct (hourly_inv rows t Ht) as (c0 & c1 & Hk & Hhours & Hrows).
  assert (Hrange : forall h, In h (map hour t) -> 0 <= h <= 23).
  { intros h Hh. rewrite Hhours in Hh. apply (proj1 (Z_keys_In _ _)) in Hh.
    unfold hour_column in Hh. apply in_map_iff in Hh.
    destruct Hh as [r [<- _]]. apply hour_of_day_range. }
  pose proof (group_keys_NoDup id id_inj (hour_column rows)) as Hnd.
  split; [|split].
  - apply Forall_forall. intros e He. apply Hrange. apply in_map. exact He.
  - rewrite <- (length_map hour). apply keys_in_range_length.
    + rewrite Hhours. exact Hnd.
    + exact Hrange.
  - assert (Hcne : c0 <> c1).
    { pose proof (group_keys_NoDup id id_inj (map Class rows)) as Hc.
      rewrite Hk in Hc. inversion Hc as [|? ? Hnotin _]; subst.
      intro E. apply Hnotin. left. symmetry. exact E. }
    assert (Hcl : forall r, In r rows -> Class r = c0 \/ Class r = c1).
    { intros r Hr.
      assert (Hin : In (Class r) [c0; c1])
        by (rewrite <- Hk; apply Z_keys_In; apply in_map; exact Hr).
      destruct Hin as [E | [E | []]]; auto. }
    rewrite (Zsum_map_ext _
               (fun e => Z.of_nat (length (filter (fun r => hour_of_day (Time r) =? hour e) rows)))).
    + rewrite <- (map_map hour
                    (fun h => Z.of_nat (length (filter (fun r => hour_of_day (Time r) =? h) rows)))).
      rewrite Hhours. apply Zsum_key_counts; [exact Hnd|].
      intros r Hr. apply Z_keys_In. unfold hour_column.
      exact (in_map (fun x => hour_of_day (Time x)) rows r Hr).
    + intros e He. rewrite Forall_forall in Hrows.
      destruct (Hrows e He) as (Hl & Hf & _). rewrite Hl, Hf.
      apply two_class_counts; assumption.
Qed.

Lemma hourly_counts_add_up_witness :
  exists t,
    hourly (hour_column four_transactions) four_transactions = inr t /\
    Zsum (map (fun e => legitimate e + fraudulent e) t) = 4.
Proof.
  destruct (hourly (hour_column four_transactions) four_transactions)
    as [e | t] eqn:Ht.
  { vm_compute in Ht. discriminate Ht. }
  exists t. split; [reflexivity|].
  exact (proj2 (proj2 (hourly_counts_add_up four_transactions t Ht))).
Defined.

(** The hourly table is built exactly when two distinct labels occur
    in the table; with any other number [n] of distinct labels line 185
    raises ValueError, the table having [n + 1] columns for three names. *)
Theorem hourly_defined_iff (rows : list txn) :
  ((exists t, hourly (hour_column rows) rows = inr t)
   <-> length (group_keys id (map Class rows)) = 2%nat) /\
  (length (group_keys id (map Class rows)) <> 2%nat ->
   hourly (hour_column rows) rows
   = inl (ValueError_length (S (length (group_keys id (map Class rows)))) 3)).
Proof.
  unfold hourly.
  destruct (group_keys id (map Class rows)) as [|c0 [|c1 [|c2 cs]]] eqn:Hk;
    cbn [length]; (split; [split|]);
    try (intros [t Ht]; discriminate Ht);
    try (intro H; discriminate H);
    try (intro H; exfalso; apply H; reflexivity);
    try reflexivity.
  intros _. eexists. reflexivity.
Qed.

Lemma hourly_defined_iff_witness :
  length (group_keys id (map Class single_legitimate)) <> 2%nat /\
  hourly (hour_column single_legitimate) single_legitimate
  = inl (ValueError_length 2 3).
Proof.
  assert (H : length (group_keys id (map Class single_legitimate)) <> 2%nat)
    by (vm_compute; discriminate).
  split; [exact H|].
  exact (proj2 (hourly_defined_iff single_legitimate) H).
Defined.

(** ** Further properties: the run as a whole *)

Lemma bar_same_length {A B C : Type} (f : C -> A) (g : C -> B) (l : list C) :
  bar (map f l) (map g l) = inr tt.
Proof.
  unfold bar, broadcastable. rewrite !length_map, Nat.eqb_refl. reflexivity.
Qed.

(** The run in a directory with outputs/ on a loaded table, by the first
    cell that raises. *)
Lemma main_stages (rows : list txn) :
  main (Table rows) =
  match fraud_summary (map Class rows) with
  | inl e =>
      mk_outcome (Some (mk_df rows None None))
        [LibrariesLoaded; DatasetShape (length rows); DataStructure;
         MissingValueAudit] (inl e)
  | inr ct =>
      match class_charts (map Class rows) with
      | inl e =>
          mk_outcome (Some (mk_df rows None None))
            [LibrariesLoaded; DatasetShape (length rows); DataStructure;
             MissingValueAudit; ClassDistribution ct] (inl e)
      | inr _ =>
      match band_summary (band_column rows) rows with
      | inl e =>
          mk_outcome (Some (mk_df rows (Some (band_column rows)) None))
            [LibrariesLoaded; DatasetShape (length rows); DataStructure;
             MissingValueAudit; ClassDistribution ct;
             AmountStatistics (amount_stats rows)] (inl e)
      | inr bs =>
          match hourly (hour_column rows) rows with
          | inl e =>
              mk_outcome
                (Some (mk_df rows (Some (band_column rows))
                         (Some (hour_column rows))))
                [LibrariesLoaded; DatasetShape (length rows); DataStructure;
                 MissingValueAudit; ClassDistribution ct;
                 AmountStatistics (amount_stats rows); FraudRateByBand bs]
                (inl e)
          | inr hs =>
              match feature_frame rows with
              | inl e =>
                  mk_outcome
                    (Some (mk_df rows (Some (band_column rows))
                             (Some (hour_column rows))))
                    [LibrariesLoaded; DatasetShape (length rows);
                     DataStructure; MissingValueAudit; ClassDistribution ct;
                     AmountStatistics (amount_stats rows); FraudRateByBand bs;
                     HourlyFraud hs] (inl e)
              | inr _ =>
              match executive rows bs hs with
              | inl e =>
                  mk_outcome
                    (Some (mk_df rows (Some (band_column rows))
                             (Some (hour_column rows))))
                    [LibrariesLoaded; DatasetShape (length rows);
                     DataStructure; MissingValueAudit; ClassDistribution ct;
                     AmountStatistics (amount_stats rows); FraudRateByBand bs;
                     HourlyFraud hs; CorrelationHeatmap] (inl e)
              | inr s =>
                  mk_outcome
                    (Some (mk_df rows (Some (band_column rows))
                             (Some (hour_column rows))))
                    [LibrariesLoaded; DatasetShape (length rows);
                     DataStructure; MissingValueAudit; ClassDistribution ct;
                     AmountStatistics (amount_stats rows); FraudRateByBand bs;
                     HourlyFraud hs; CorrelationHeatmap; ExecutiveSummary s]
                    (inr tt)
              end
              end
          end
      end
      end
  end.
Proof.
  unfold main, run, cells, cell2, cell3, cell4, cell5, cell6, cell7, cell8,
    cell9, cell10, bind, get_df, lift, print, ret, savefig, set_amount_band,
    set_hour_of_day, column_amount_band, column_hour_of_day.
  cbn [read_csv df stdout outputs_dir df_rows df_amount_band df_hour_of_day
         app fst snd].
  destruct (fraud_summary (map Class rows)) as [e | ct]; [reflexivity|].
  cbn [df stdout outputs_dir df_rows df_amount_band df_hour_of_day app fst snd].
  destruct (class_charts (map Class rows)) as [e | []]; [reflexivity|].
  cbn [df stdout outputs_dir df_rows df_amount_band df_hour_of_day app fst snd].
  destruct (band_summary (band_column rows) rows) as [e | bs]; [reflexivity|].
  cbn [df stdout outputs_dir df_rows df_amount_band df_hour_of_day app fst snd].
  rewrite bar_same_length.
  cbn [df stdout outputs_dir df_rows df_amount_band df_hour_of_day app fst snd].
  destruct (hourly (hour_column rows) rows) as [e | hs]; [reflexivity|].
  cbn [df stdout outputs_dir df_rows df_amount_band df_hour_of_day app fst snd].
  rewrite !bar_same_length.
  cbn [df stdout outputs_dir df_rows df_amount_band df_hour_of_day app fst snd].
  destruct (feature_frame rows) as [e | ff]; [reflexivity|].
  cbn [df stdout outputs_dir df_rows df_amount_band df_hour_of_day app fst snd].
  destruct (executive rows bs hs) as [e | s]; reflexivity.
Qed.

(** Without outputs/ a run that passes the charts of cell 5 ends at its
    [savefig], line 89. *)
Lemma run_without_outputs (rows : list txn) :
  run false (Table rows) =
  match fraud_summary (map Class rows) with
  | inl e =>
      mk_outcome (Some (mk_df rows None None))
        [LibrariesLoaded; DatasetShape (length rows); DataStructure;
         MissingValueAudit] (inl e)
  | inr ct =>
      mk_outcome (Some (mk_df rows None None))
        [LibrariesLoaded; DatasetShape (length rows); DataStructure;
         MissingValueAudit; ClassDistribution ct]
        (inl match class_charts (map Class rows) with
             | inl e => e
             | inr _ => FileNotFoundError_path "outputs/01_class_distribution.png"
             end)
  end.
Proof.
  unfold run, cells, cell2, cell3, cell4, cell5, bind, get_df, lift, print,
    savefig.
  cbn [read_csv df stdout outputs_dir df_rows df_amount_band df_hour_of_day
         app fst snd].
  destruct (fraud_summary (map Class rows)) as [e | ct]; [reflexivity|].
  cbn [df stdout outputs_dir df_rows df_amount_band df_hour_of_day app fst snd].
  destruct (class_charts (map Class rows)) as [e | []]; reflexivity.
Qed.

Lemma value_counts_length (classes : list Z) :
  length (map snd (value_counts classes)) = length (group_keys id classes).
Proof. unfold value_counts. rewrite !length_map. reflexivity. Qed.

(** The charts of cell 5 are drawn for two labels and raise for more. *)
Lemma class_charts_two (classes : list Z) :
  length (group_keys id classes) = 2%nat -> class_charts classes = inr tt.
Proof.
  intro H. unfold class_charts, bar, pie, broadcastable. cbv zeta.
  rewrite value_counts_length, H. reflexivity.
Qed.

Lemma class_charts_many (classes : list Z) :
  (3 <= length (group_keys id classes))%nat ->
  class_charts classes
  = inl (ValueError_shape 2 (length (group_keys id classes))).
Proof.
  intro H. unfold class_charts, bar, broadcastable. cbv zeta.
  rewrite value_counts_length. cbn [length].
  destruct (length (group_keys id classes)) as [|[|[|n]]]; try lia.
  reflexivity.
Qed.

Lemma two_labels_at_least (classes : list Z) :
  In 0 classes -> In 1 classes -> (2 <= length (group_keys id classes))%nat.
Proof.
  intros H0 H1.
  assert (Hnd : NoDup [0; 1]).
  { constructor; [intros [E | []]; discriminate E|].
    constructor; [intros []|constructor]. }
  assert (Hincl : incl [0; 1] (group_keys id classes)).
  { intros c [<- | [<- | []]]; apply Z_keys_In; assumption. }
  exact (NoDup_incl_length Hnd Hincl).
Qed.

Lemma class_charts_inr_two (classes : list Z) (u : unit) :
  In 0 classes -> In 1 classes ->
  class_charts classes = inr u -> length (group_keys id classes) = 2%nat.
Proof.
  intros H0 H1 Hc. pose proof (two_labels_at_least classes H0 H1) as Hge.
  destruct (Nat.eq_dec (length (group_keys id classes)) 2) as [E | E];
    [exact E|].
  rewrite class_charts_many in Hc by lia. discriminate Hc.
Qed.

Lemma feature_frame_defined (rows : list txn) :
  (exists ff, feature_frame rows = inr ff)
  <-> forall r, In r rows -> (10 <= length (V r))%nat.
Proof.
  unfold feature_frame, has_feature_cols.
  destruct (forallb (fun r => (10 <=? length (V r))%nat) rows) eqn:E.
  - split; [|intros _; eexists; reflexivity].
    intros _ r Hr. rewrite forallb_forall in E.
    apply Nat.leb_le. exact (E r Hr).
  - split; [intros [ff H]; discriminate H|].
    intro H. exfalso.
    assert (Ht : forallb (fun r => (10 <=? length (V r))%nat) rows = true).
    { apply forallb_forall. intros r Hr. apply Nat.leb_le. exact (H r Hr). }
    rewrite Ht in E. discriminate E.
Qed.

Lemma fraud_summary_inl (classes : list Z) :
  ~ In 0 classes \/ ~ In 1 classes ->
  exists k, (k = 0 \/ k = 1) /\ fraud_summary classes = inl (KeyError k).
Proof.
  intro H. unfold fraud_summary.
  destruct (in_dec Z.eq_dec 0 classes) as [H0 | H0].
  - destruct H as [H | H1]; [contradiction|].
    exists 1. split; [right; reflexivity|].
    rewrite (value_counts_get_present _ _ H0). cbn [rbind].
    rewrite (value_counts_get_absent _ _ H1). reflexivity.
  - exists 0. split; [left; reflexivity|].
    rewrite (value_counts_get_absent _ _ H0). reflexivity.
Qed.

Lemma fraud_summary_inr_labels (classes : list Z) (t : class_table) :
  fraud_summary classes = inr t -> In 0 classes /\ In 1 classes.
Proof.
  intro Ht.
  destruct (in_dec Z.eq_dec 0 classes) as [H0 | H0];
    [destruct (in_dec Z.eq_dec 1 classes) as [H1 | H1]; [split; assumption|]|].
  - destruct (fraud_summary_inl classes (or_intror H1)) as (k & _ & E).
    rewrite E in Ht. discriminate Ht.
  - destruct (fraud_summary_inl classes (or_introl H0)) as (k & _ & E).
    rewrite E in Ht. discriminate Ht.
Qed.

(** The labels of the column are exactly 0 and 1. *)
Lemma labels_exactly_0_1 (classes : list Z) :
  (forall c, In c classes <-> c = 0 \/ c = 1)
  <-> group_keys id classes = [0; 1].
Proof.
  split.
  - intro H. apply (sorted_same_members id).
    + apply (group_keys_sorted id id_inj).
    + repeat constructor.
    + intro x. rewrite Z_keys_In, H. simpl. intuition.
  - intros Hk c. rewrite <- Z_keys_In, Hk. simpl. intuition.
Qed.

Lemma two_keys_0_1 (classes : list Z) :
  In 0 classes -> In 1 classes ->
  length (group_keys id classes) = 2%nat ->
  group_keys id classes = [0; 1].
Proof.
  intros H0 H1 Hlen.
  apply Z_keys_In in H0. apply Z_keys_In in H1.
  pose proof (Z_keys_sorted classes) as Hs.
  destruct (group_keys id classes) as [|a [|b [|c cs]]]; try discriminate Hlen.
  inversion Hs as [|? ? _ Hall]; subst. inversion Hall as [|? ? Hab _]; subst.
  destruct H0 as [E0 | [E0 | []]]; destruct H1 as [E1 | [E1 | []]]; subst;
    try lia; reflexivity.
Qed.

Lemma band_summary_inr_fraud (rows : list txn) (t : list (band_row * Q)) :
  band_summary (band_column rows) rows = inr t ->
  forall r, In r rows ->
    exists r', In r' rows /\ Class r' = 1 /\
      assign_risk_band (Amount r') = assign_risk_band (Amount r).
Proof.
  intros Ht r Hr.
  destruct (band_summary_lengths rows t Ht) as [Hlen _].
  pose proof (fraud_keys_same rows Hlen) as Hk.
  apply fraud_keys_In. apply (proj1 (band_keys_In _ _)). rewrite Hk.
  apply band_keys_In. unfold band_column.
  exact (in_map (fun x => assign_risk_band (Amount x)) rows r Hr).
Qed.

(** Line 158 either goes through or raises on an array shorter than the
    table. *)
Lemma band_summary_cases (rows : list txn) :
  (exists t, band_summary (band_column rows) rows = inr t) \/
  (exists n m : nat, (m < n)%nat /\
     band_summary (band_column rows) rows = inl (ValueError_length n m)).
Proof.
  unfold band_summary, assign_column.
  destruct (Nat.eqb_spec (length (fraud_exposure_values (band_column rows) rows))
              (length (band_groupby_agg (band_column rows) rows))) as [E | E].
  - left. eexists. reflexivity.
  - right. do 2 eexists. split; [|reflexivity].
    assert (Hle : (length (fraud_exposure_values (band_column rows) rows)
                   <= length (band_groupby_agg (band_column rows) rows))%nat).
    { unfold fraud_exposure_values, band_groupby_agg. rewrite !length_map.
      apply NoDup_incl_length;
        [apply (group_keys_NoDup band_rank band_rank_inj) | apply fraud_keys_incl]. }
    lia.
Qed.

(** Where both tables are built, the two [idxmax] of cell 10 are defined
    and stand on an hour and a band of the table. *)
Lemma tables_have_peaks (rows : list txn)
    (bs : list (band_row * Q)) (hs : list hourly_row) :
  band_summary (band_column rows) rows = inr bs ->
  hourly (hour_column rows) rows = inr hs ->
  exists h b,
    peak_hour hs = inr h /\ highest_band bs = inr b /\
    In h (hour_column rows) /\ In b (band_column rows).
Proof.
  intros Hbs Hhs.
  destruct (hourly_inv rows hs Hhs) as (c0 & c1 & Hk & Hhours & Hrows).
  destruct (band_summary_exposure rows bs Hbs) as [Hfst _].
  destruct (band_groupby_agg_inv rows) as [Hbands Hagg].
  assert (Hrows_ne : rows <> []) by (intro E; subst rows; discriminate Hk).
  assert (Hhs_ne : hs <> []).
  { intro E. subst hs. destruct rows as [|r0 rows]; [contradiction|].
    assert (Hin : In (hour_of_day (Time r0))
                     (group_keys id (hour_column (r0 :: rows))))
      by (apply Z_keys_In; left; reflexivity).
    rewrite <- Hhours in Hin. simpl in Hin. exact Hin. }
  assert (Hbs_ne : bs <> []).
  { intro E. subst bs. destruct rows as [|r0 rows]; [contradiction|].
    assert (Hin : In (assign_risk_band (Amount r0))
                     (group_keys band_rank (band_column (r0 :: rows))))
      by (apply band_keys_In; left; reflexivity).
    rewrite <- Hbands, <- Hfst in Hin. simpl in Hin. exact Hin. }
  assert (Hhs_num : Forall (fun e => exists x, fraud_rate e = Some x) hs).
  { eapply Forall_impl; [|exact Hrows]. cbv beta.
    intros e (_ & _ & _ & Hr). eexists. exact Hr. }
  assert (Hhs_sorted : StronglySorted Z.lt (map hour hs))
    by (rewrite Hhours; apply Z_keys_sorted).
  destruct (idxmax_least_key hour fraud_rate hs Hhs_sorted Hhs_num Hhs_ne)
    as (jh & eh & mh & Hjh & Heh & _).
  set (key := fun e : band_row * Q => band_rank (amount_band (fst e))).
  set (rate := fun e : band_row * Q => fraud_rate_pct (fst e)).
  assert (Hbs_sorted : StronglySorted Z.lt (map key bs)).
  { unfold key.
    rewrite <- (map_map fst (fun r => band_rank (amount_band r))), Hfst.
    rewrite <- (map_map amount_band band_rank), Hbands.
    apply band_keys_sorted. }
  assert (Hbs_num : Forall (fun e => exists x, rate e = Some x) bs).
  { apply Forall_forall. intros e He. unfold rate.
    assert (Hin : In (fst e) (band_groupby_agg (band_column rows) rows))
      by (rewrite <- Hfst; apply in_map; exact He).
    rewrite Forall_forall in Hagg. destruct (Hagg _ Hin) as [_ Hr].
    eexists. exact Hr. }
  destruct (idxmax_least_key key rate bs Hbs_sorted Hbs_num Hbs_ne)
    as (jb & eb & mb & Hjb & Heb & _).
  exists (hour eh), (amount_band (fst eb)). split; [|split; [|split]].
  - unfold peak_hour. rewrite Hjh. cbn [rbind]. unfold loc. rewrite Heh. reflexivity.
  - unfold highest_band. fold rate. rewrite Hjb. cbn [rbind]. unfold loc.
    rewrite Heb. reflexivity.
  - apply Z_keys_In. rewrite <- Hhours. apply in_map.
    exact (nth_error_In _ _ Heh).
  - apply band_keys_In. rewrite <- Hbands, <- Hfst, map_map.
    exact (in_map (fun e => amount_band (fst e)) bs eb (nth_error_In _ _ Heb)).
Qed.

Lemma executive_defined (rows : list txn)
    (bs : list (band_row * Q)) (hs : list hourly_row) (h : Z) (b : band) :
  peak_hour hs = inr h -> highest_band bs = inr b ->
  executive rows bs hs
  = inr (mk_executive_summary
           (Z.of_nat (length rows)) (Zsum (map Class rows))
           (fround 4 (option_map (fun q => q * 100)%Q
                        (fdiv (inject_Z (Zsum (map Class rows)))
                              (inject_Z (Z.of_nat (length rows))))))
           (round_dec 2 (Qsum (map Amount rows)))
           (round_dec 2 (Qsum (amounts_of_class 1 rows)))
           (fround 2 (mean (amounts_of_class 1 rows)))
           (fround 2 (mean (amounts_of_class 0 rows))) h b).
Proof.
  intros Hh Hb. unfold executive. rewrite Hh, Hb. reflexivity.
Qed.

(** X13: a run on a loaded table ends normally exactly when the working
    directory has outputs/, the labels that occur are 0 and 1, both of
    them, every band that holds a transaction holds a fraudulent one, and
    the table has the feature columns V1..V10; it has then attached the
    two derived columns and printed its ten reports in the order of the
    cells. *)
Theorem run_completes_iff (outputs : bool) (rows : list txn) :
  (status (run outputs (Table rows)) = inr tt <->
   outputs = true /\
   (forall c, In c (map Class rows) <-> c = 0 \/ c = 1) /\
   (forall r, In r rows ->
      exists r', In r' rows /\ Class r' = 1 /\
        assign_risk_band (Amount r') = assign_risk_band (Amount r)) /\
   (forall r, In r rows -> (10 <= length (V r))%nat)) /\
  (status (run outputs (Table rows)) = inr tt ->
   exists ct bs hs s,
     run outputs (Table rows)
     = mk_outcome
         (Some (mk_df rows (Some (band_column rows)) (Some (hour_column rows))))
         [LibrariesLoaded; DatasetShape (length rows); DataStructure;
          MissingValueAudit; ClassDistribution ct;
          AmountStatistics (amount_stats rows); FraudRateByBand bs;
          HourlyFraud hs; CorrelationHeatmap; ExecutiveSummary s]
         (inr tt)).
Proof.
  destruct outputs.
  2:{ rewrite run_without_outputs.
      destruct (fraud_summary (map Class rows)) as [e | ct]; cbn [status];
        (split; [split|]); try (intro H; discriminate H).
      - intros [H _]. discriminate H.
      - intros [H _]. discriminate H. }
  change (run true (Table rows)) with (main (Table rows)).
  rewrite main_stages. split; [split|].
  - destruct (fraud_summary (map Class rows)) as [e | ct] eqn:Hct;
      [intro H; discriminate H|].
    destruct (class_charts (map Class rows)) as [e | u] eqn:Hch;
      [intro H; discriminate H|].
    destruct (band_summary (band_column rows) rows) as [e | bs] eqn:Hbs;
      [intro H; discriminate H|].
    destruct (hourly (hour_column rows) rows) as [e | hs] eqn:Hhs;
      [intro H; discriminate H|].
    destruct (feature_frame rows) as [e | ff] eqn:Hff;
      [intro H; discriminate H|].
    intros _. destruct (fraud_summary_inr_labels _ _ Hct) as [H0 H1].
    split; [reflexivity|]. split; [|split].
    + apply labels_exactly_0_1. apply two_keys_0_1; try assumption.
      exact (class_charts_inr_two _ u H0 H1 Hch).
    + exact (band_summary_inr_fraud rows bs Hbs).
    + apply feature_frame_defined. exists ff. exact Hff.
  - intros (_ & Hlab & Hbands & Hfeat).
    apply labels_exactly_0_1 in Hlab.
    assert (H0 : In 0 (map Class rows)) by (apply Z_keys_In; rewrite Hlab; simpl; auto).
    assert (H1 : In 1 (map Class rows)) by (apply Z_keys_In; rewrite Hlab; simpl; auto).
    rewrite (fraud_summary_table _ H0 H1).
    rewrite class_charts_two by (rewrite Hlab; reflexivity).
    destruct (band_summary_succeeds rows Hbands) as [bs Hbs]. rewrite Hbs.
    assert (Hex : exists hs, hourly (hour_column rows) rows = inr hs)
      by (unfold hourly; rewrite Hlab; eexists; reflexivity).
    destruct Hex as [hs Hhs]. rewrite Hhs.
    destruct (proj2 (feature_frame_defined rows) Hfeat) as [ff Hff]. rewrite Hff.
    destruct (tables_have_peaks rows bs hs Hbs Hhs) as (h & b & Hh & Hb & _).
    rewrite (executive_defined rows bs hs h b Hh Hb). reflexivity.
  - destruct (fraud_summary (map Class rows)) as [e | ct];
      [intro H; discriminate H|].
    destruct (class_charts (map Class rows)) as [e | u];
      [intro H; discriminate H|].
    destruct (band_summary (band_column rows) rows) as [e | bs];
      [intro H; discriminate H|].
    destruct (hourly (hour_column rows) rows) as [e | hs];
      [intro H; discriminate H|].
    destruct (feature_frame rows) as [e | ff]; [intro H; discriminate H|].
    destruct (executive rows bs hs) as [e | s]; [intro H; discriminate H|].
    intros _. exists ct, bs, hs, s. reflexivity.
Qed.

Lemma run_completes_iff_witness :
  status (run true (Table four_transactions)) = inr tt /\
  exists ct bs hs s,
    printed (run true (Table four_transactions))
    = [LibrariesLoaded; DatasetShape 4; DataStructure; MissingValueAudit;
       ClassDistribution ct; AmountStatistics (amount_stats four_transactions);
       FraudRateByBand bs; HourlyFraud hs; CorrelationHeatmap;
       ExecutiveSummary s].
Proof.
  assert (H : status (run true (Table four_transactions)) = inr tt)
    by (vm_compute; reflexivity).
  split; [exact H|].
  destruct (proj2 (run_completes_iff true four_transactions) H)
    as (ct & bs & hs & s & E).
  exists ct, bs, hs, s. rewrite E. reflexivity.
Defined.

(** X14: on a table that lacks label 0 or label 1 the run ends in cell 5
    with KeyError of the missing label: the reports of the loader only
    are printed and no column is attached to the DataFrame. *)
Theorem run_stops_in_cell5 (rows : list txn) :
  ~ In 0 (map Class rows) \/ ~ In 1 (map Class rows) ->
  exists k, (k = 0 \/ k = 1) /\ ~ In k (map Class rows) /\
    main (Table rows)
    = mk_outcome (Some (mk_df rows None None))
        [LibrariesLoaded; DatasetShape (length rows); DataStructure;
         MissingValueAudit]
        (inl (KeyError k)).
Proof.
  intro H. rewrite main_stages. unfold fraud_summary.
  destruct (in_dec Z.eq_dec 0 (map Class rows)) as [H0 | H0].
  - destruct H as [H | H1]; [contradiction|].
    exists 1. split; [right; reflexivity|]. split; [exact H1|].
    rewrite (value_counts_get_present _ _ H0). cbn [rbind].
    rewrite (value_counts_get_absent _ _ H1). reflexivity.
  - exists 0. split; [left; reflexivity|]. split; [exact H0|].
    rewrite (value_counts_get_absent _ _ H0). reflexivity.
Qed.

Lemma run_stops_in_cell5_witness :
  (~ In 0 (map Class single_legitimate) \/ ~ In 1 (map Class single_legitimate)) /\
  exists k,
    main (Table single_legitimate)
    = mk_outcome (Some (mk_df single_legitimate None None))
        [LibrariesLoaded; DatasetShape 1; DataStructure; MissingValueAudit]
        (inl (KeyError k)).
Proof.
  assert (H : ~ In 0 (map Class single_legitimate)
              \/ ~ In 1 (map Class single_legitimate)).
  { right. intros [E | []]. discriminate E. }
  split; [exact H|].
  destruct (run_stops_in_cell5 single_legitimate H) as (k & _ & _ & E).
  exists k. exact E.
Defined.

(** X15: in a directory with outputs/, on a table whose labels are 0 and
    1, both of them, and in which some band holds a transaction and no
    fraudulent one, the run ends in cell 7 with the ValueError of line
    158: the column amount_band is already attached, hour_of_day is not,
    and the band table is not printed. *)
Theorem run_stops_in_cell7 (rows : list txn) (r : txn) :
  (forall c, In c (map Class rows) <-> c = 0 \/ c = 1) ->
  In r rows ->
  (forall r', In r' rows -> Class r' = 1 ->
     assign_risk_band (Amount r') <> assign_risk_band (Amount r)) ->
  exists ct n m,
    (m < n)%nat /\
    main (Table rows)
    = mk_outcome (Some (mk_df rows (Some (band_column rows)) None))
        [LibrariesLoaded; DatasetShape (length rows); DataStructure;
         MissingValueAudit; ClassDistribution ct;
         AmountStatistics (amount_stats rows)]
        (inl (ValueError_length n m)).
Proof.
  intros Hlab Hr Hnofraud. rewrite main_stages.
  apply labels_exactly_0_1 in Hlab.
  assert (H0 : In 0 (map Class rows)) by (apply Z_keys_In; rewrite Hlab; simpl; auto).
  assert (H1 : In 1 (map Class rows)) by (apply Z_keys_In; rewrite Hlab; simpl; auto).
  rewrite (fraud_summary_table _ H0 H1).
  rewrite class_charts_two by (rewrite Hlab; reflexivity).
  destruct (band_summary_cases rows) as [[t Ht] | (n & m & Hlt & E)].
  - exfalso. destruct (band_summary_inr_fraud rows t Ht r Hr) as (r' & Hr' & Hc & Hb).
    exact (Hnofraud r' Hr' Hc Hb).
  - rewrite E. eexists. exists n, m. split; [exact Hlt | reflexivity].
Qed.

Lemma run_stops_in_cell7_witness :
  (forall c, In c (map Class five_line_scenario) <-> c = 0 \/ c = 1) /\
  In (sample_txn 0 5 0) five_line_scenario /\
  exists ct n m,
    main (Table five_line_scenario)
    = mk_outcome
        (Some (mk_df five_line_scenario (Some (band_column five_line_scenario)) None))
        [LibrariesLoaded; DatasetShape 5; DataStructure;
         MissingValueAudit; ClassDistribution ct;
         AmountStatistics (amount_stats five_line_scenario)]
        (inl (ValueError_length n m)).
Proof.
  assert (Hlab : forall c, In c (map Class five_line_scenario) <-> c = 0 \/ c = 1).
  { intro c. split.
    - intros [H | [H | [H | [H | [H | []]]]]]; cbn in H; auto.
    - intros [-> | ->]; [left; reflexivity | right; right; left; reflexivity]. }
  assert (Hr : In (sample_txn 0 5 0) five_line_scenario) by (left; reflexivity).
  split; [exact Hlab|]. split; [exact Hr|].
  assert (Hno : forall r', In r' five_line_scenario -> Class r' = 1 ->
            assign_risk_band (Amount r') <> assign_risk_band (Amount (sample_txn 0 5 0))).
  { intros r' [<- | [<- | [<- | [<- | [<- | []]]]]] Hc;
      try discriminate Hc; intro Hb; discriminate Hb. }
  destruct (run_stops_in_cell7 five_line_scenario _ Hlab Hr Hno)
    as (ct & n & m & _ & E).
  exists ct, n, m. exact E.
Defined.

(** X16: in a directory with outputs/, on a table with labels 0 and 1 and
    a third label, the run ends in cell 5 at the bar chart of line 75,
    which gets a count for each label under two names and raises
    ValueError: the class table is printed, no column is attached, and no
    later cell is run. *)
Theorem run_stops_at_bar_chart (rows : list txn) (r : txn) :
  In 0 (map Class rows) -> In 1 (map Class rows) ->
  In r rows -> Class r <> 0 -> Class r <> 1 ->
  exists ct n,
    (3 <= n)%nat /\
    main (Table rows)
    = mk_outcome (Some (mk_df rows None None))
        [LibrariesLoaded; DatasetShape (length rows); DataStructure;
         MissingValueAudit; ClassDistribution ct]
        (inl (ValueError_shape 2 n)).
Proof.
  intros H0 H1 Hr Hr0 Hr1. rewrite main_stages.
  rewrite (fraud_summary_table _ H0 H1).
  assert (Hlen : (3 <= length (group_keys id (map Class rows)))%nat).
  { assert (Hnd : NoDup [0; 1; Class r]).
    { constructor; [intros [E | [E | []]]; [discriminate E | congruence]|].
      constructor; [intros [E | []]; congruence|].
      constructor; [intros []|constructor]. }
    assert (Hincl : incl [0; 1; Class r] (group_keys id (map Class rows))).
    { intros c [<- | [<- | [<- | []]]]; apply Z_keys_In;
        [exact H0 | exact H1 | apply in_map; exact Hr]. }
    exact (NoDup_incl_length Hnd Hincl). }
  rewrite (class_charts_many _ Hlen).
  eexists. eexists. split; [exact Hlen | reflexivity].
Qed.

Lemma run_stops_at_bar_chart_witness :
  exists ct n,
    main (Table [sample_txn 0 5 0; sample_txn 0 5 1; sample_txn 0 5 2])
    = mk_outcome
        (Some (mk_df [sample_txn 0 5 0; sample_txn 0 5 1; sample_txn 0 5 2]
                 None None))
        [LibrariesLoaded; DatasetShape 3; DataStructure;
         MissingValueAudit; ClassDistribution ct]
        (inl (ValueError_shape 2 n)).
Proof.
  set (rows := [sample_txn 0 5 0; sample_txn 0 5 1; sample_txn 0 5 2]).
  assert (H0 : In 0 (map Class rows)) by (left; reflexivity).
  assert (H1 : In 1 (map Class rows)) by (right; left; reflexivity).
  assert (Hr : In (sample_txn 0 5 2) rows) by (right; right; left; reflexivity).
  destruct (run_stops_at_bar_chart rows (sample_txn 0 5 2) H0 H1 Hr
              ltac:(discriminate) ltac:(discriminate))
    as (ct & n & _ & E).
  exists ct, n. exact E.
Defined.

Lemma filter_length_lt {A : Type} (P : A -> bool) (l : list A) (a : A) :
  In a l -> P a = false -> (length (filter P l) < length l)%nat.
Proof.
  induction l as [|x l IH]; intros Hin HP; [destruct Hin|].
  pose proof (filter_length_le P l) as Hle.
  cbn [filter]. destruct Hin as [-> | Hin].
  - rewrite HP. cbn [length]. lia.
  - specialize (IH Hin HP). destruct (P x); cbn [length]; lia.
Qed.

(** X17: the executive summary that a run prints holds the number of
    lines of the table and the number of its fraudulent lines, which lies
    strictly between 0 and the number of lines; its overall rate is a
    number between 0 and 100 and its two average amounts are numbers; its
    peak hour lies in 0..23 and is the hour of a transaction, and its
    highest-risk band is the band of a transaction. *)
Theorem executive_summary_content (rows : list txn) (s : executive_summary) :
  In (ExecutiveSummary s) (printed (main (Table rows))) ->
  total_txns s = Z.of_nat (length rows) /\
  total_fraud s = Z.of_nat (length (filter (fun r => Class r =? 1) rows)) /\
  0 < total_fraud s < total_txns s /\
  (exists x, overall_rate s = Some x /\ (0 <= x <= 100)%Q) /\
  (exists a, avg_fraud_amt s = Some a) /\
  (exists a, avg_legit_amt s = Some a) /\
  0 <= exec_peak_hour s <= 23 /\
  (exists r, In r rows /\ hour_of_day (Time r) = exec_peak_hour s) /\
  (exists r, In r rows /\ assign_risk_band (Amount r) = exec_highest_band s).
Proof.
  rewrite main_stages.
  destruct (fraud_summary (map Class rows)) as [e | ct] eqn:Hct.
  { cbn [printed]. intro H. exfalso.
    repeat (destruct H as [H | H]; [discriminate H|]). exact H. }
  destruct (class_charts (map Class rows)) as [e | u] eqn:Hch.
  { cbn [printed]. intro H. exfalso.
    repeat (destruct H as [H | H]; [discriminate H|]). exact H. }
  destruct (band_summary (band_column rows) rows) as [e | bs] eqn:Hbs.
  { cbn [printed]. intro H. exfalso.
    repeat (destruct H as [H | H]; [discriminate H|]). exact H. }
  destruct (hourly (hour_column rows) rows) as [e | hs] eqn:Hhs.
  { cbn [printed]. intro H. exfalso.
    repeat (destruct H as [H | H]; [discriminate H|]). exact H. }
  destruct (feature_frame rows) as [e | ff] eqn:Hff.
  { cbn [printed]. intro H. exfalso.
    repeat (destruct H as [H | H]; [discriminate H|]). exact H. }
  destruct (tables_have_peaks rows bs hs Hbs Hhs) as (h & b & Hh & Hb & Hhin & Hbin).
  rewrite (executive_defined rows bs hs h b Hh Hb). cbn [printed]. intro H.
  do 9 (destruct H as [H | H]; [discriminate H|]).
  destruct H as [H | []]. injection H as <-.
  cbn [total_txns total_fraud overall_rate avg_fraud_amt avg_legit_amt
         exec_peak_hour exec_highest_band].
  destruct (fraud_summary_inr_labels _ _ Hct) as [H0 H1].
  destruct (hourly_inv rows hs Hhs) as (c0 & c1 & Hk & _).
  assert (Hkeys : group_keys id (map Class rows) = [0; 1])
    by (apply two_keys_0_1; try assumption; rewrite Hk; reflexivity).
  assert (Hlab : Forall (fun r => Class r = 0 \/ Class r = 1) rows).
  { apply Forall_forall. intros r Hr.
    apply (proj2 (labels_exactly_0_1 _) Hkeys). apply in_map. exact Hr. }
  apply in_map_iff in H0. destruct H0 as [r0 [Hc0 Hr0]].
  apply in_map_iff in H1. destruct H1 as [r1 [Hc1 Hr1]].
  pose proof (Zsum_labels rows Hlab) as Hsum.
  assert (Hpos : 0 < Z.of_nat (length (filter (fun r => Class r =? 1) rows)))
    by (apply (filter_length_pos _ _ r1 Hr1); rewrite Hc1; reflexivity).
  assert (Hlt : (length (filter (fun r => (Class r =? 1)%Z) rows) < length rows)%nat)
    by (apply (filter_length_lt _ _ r0 Hr0); rewrite Hc0; reflexivity).
  split; [reflexivity|]. split; [exact Hsum|]. rewrite Hsum.
  split; [lia|]. split; [|split; [|split; [|split; [|split]]]].
  - rewrite fdiv_counts by lia. cbn [option_map fround]. eexists.
    split; [reflexivity|].
    assert (Hb01 : 0 <= Z.of_nat (length (filter (fun r => Class r =? 1) rows))
                   <= Z.of_nat (length rows)) by lia.
    destruct (ratio_pct_bounds _ _ Hb01 ltac:(lia)) as [Ha Hb'].
    destruct (round_dec_between 4 0 100 _ Ha Hb') as [Hx Hy].
    split; [exact Hx | exact Hy].
  - destruct (fround 2 (mean (amounts_of_class 1 rows))) as [a|] eqn:E;
      [exists a; reflexivity|].
    apply fround_none, mean_none in E.
    exfalso. exact (proj1 (amounts_of_class_nil 1 rows) E r1 Hr1 Hc1).
  - destruct (fround 2 (mean (amounts_of_class 0 rows))) as [a|] eqn:E;
      [exists a; reflexivity|].
    apply fround_none, mean_none in E.
    exfalso. exact (proj1 (amounts_of_class_nil 0 rows) E r0 Hr0 Hc0).
  - unfold hour_column in Hhin. apply in_map_iff in Hhin.
    destruct Hhin as [r [<- _]]. apply hour_of_day_range.
  - unfold hour_column in Hhin. apply in_map_iff in Hhin.
    destruct Hhin as [r [E Hr]]. exists r. split; assumption.
  - unfold band_column in Hbin. apply in_map_iff in Hbin.
    destruct Hbin as [r [E Hr]]. exists r. split; assumption.
Qed.

Lemma executive_summary_content_witness :
  exists s,
    In (ExecutiveSummary s) (printed (main (Table four_transactions))) /\
    total_txns s = 4 /\ total_fraud s = 2.
Proof.
  assert (Hex : exists s,
            In (ExecutiveSummary s) (printed (main (Table four_transactions)))).
  { eexists. vm_compute. do 9 right. left. reflexivity. }
  destruct Hex as [s Hin]. exists s. split; [exact Hin|].
  destruct (executive_summary_content four_transactions s Hin) as (H1 & H2 & _).
  split; [exact H1 | exact H2].
Defined.

(** ** Further properties: the list of peak hours *)

Lemma rate_ltb_irrefl (a : option Q) : rate_ltb a a = false.
Proof.
  destruct a as [x|]; [|reflexivity]. cbn. apply Qltb_ge. lra.
Qed.

Lemma rate_ltb_asym (a b : option Q) :
  rate_ltb a b = true -> rate_ltb b a = false.
Proof.
  destruct a as [x|], b as [y|]; cbn; intro H; try reflexivity; try discriminate H.
  apply Qltb_lt in H. apply Qltb_ge. lra.
Qed.

Lemma rate_ltb_false_trans (a b c : option Q) :
  rate_ltb a b = false -> rate_ltb b c = false -> rate_ltb a c = false.
Proof.
  destruct a as [x|], b as [y|], c as [z|]; cbn; intros H1 H2;
    try reflexivity; try discriminate H1; try discriminate H2.
  apply Qltb_ge in H1. apply Qltb_ge in H2. apply Qltb_ge. lra.
Qed.

Lemma insert_by_rate_In (e y : hourly_row) (l : list hourly_row) :
  In y (insert_by_rate e l) <-> y = e \/ In y l.
Proof.
  induction l as [|x t IH]; cbn [insert_by_rate].
  - simpl. intuition.
  - destruct (rate_ltb (fraud_rate e) (fraud_rate x)); simpl.
    + rewrite IH. intuition.
    + intuition.
Qed.

Lemma insert_by_rate_length (e : hourly_row) (l : list hourly_row) :
  length (insert_by_rate e l) = S (length l).
Proof.
  induction l as [|x t IH]; [reflexivity|]. cbn [insert_by_rate].
  destruct (rate_ltb (fraud_rate e) (fraud_rate x)); cbn [length];
    [rewrite IH|]; reflexivity.
Qed.

Lemma sort_by_rate_length (l : list hourly_row) :
  length (sort_by_rate l) = length l.
Proof.
  induction l as [|e l IH]; [reflexivity|].
  cbn [sort_by_rate fold_right]. fold (sort_by_rate l).
  rewrite insert_by_rate_length, IH. reflexivity.
Qed.

Lemma sort_by_rate_In (y : hourly_row) (l : list hourly_row) :
  In y (sort_by_rate l) <-> In y l.
Proof.
  induction l as [|e l IH]; [tauto|].
  cbn [sort_by_rate fold_right]. fold (sort_by_rate l).
  rewrite insert_by_rate_In, IH. simpl. intuition.
Qed.

Lemma insert_by_rate_sorted (e : hourly_row) (l : list hourly_row) :
  StronglySorted (fun a b => rate_ltb (fraud_rate a) (fraud_rate b) = false) l ->
  StronglySorted (fun a b => rate_ltb (fraud_rate a) (fraud_rate b) = false)
    (insert_by_rate e l).
Proof.
  induction 1 as [|x t Ht IH Hall]; cbn [insert_by_rate].
  - repeat constructor.
  - destruct (rate_ltb (fraud_rate e) (fraud_rate x)) eqn:E.
    + constructor; [exact IH|]. rewrite Forall_forall in *. intros y Hy.
      apply insert_by_rate_In in Hy. destruct Hy as [-> | Hy].
      * apply rate_ltb_asym. exact E.
      * exact (Hall y Hy).
    + constructor; [constructor; assumption|].
      constructor; [exact E|]. rewrite Forall_forall in *. intros y Hy.
      exact (rate_ltb_false_trans _ _ _ E (Hall y Hy)).
Qed.

Lemma sort_by_rate_sorted (l : list hourly_row) :
  StronglySorted (fun a b => rate_ltb (fraud_rate a) (fraud_rate b) = false)
    (sort_by_rate l).
Proof.
  induction l as [|e l IH]; [constructor|].
  cbn [sort_by_rate fold_right]. apply insert_by_rate_sorted. exact IH.
Qed.

Lemma firstn_member {A : Type} (n : nat) (l : list A) (x : A) :
  In x (firstn n l) -> In x l.
Proof.
  revert n. induction l as [|a l IH]; intros [|n] H; cbn [firstn] in H;
    try destruct H as [H | H]; try (left; exact H); try contradiction.
  right. exact (IH n H).
Qed.

Lemma firstn_sorted {A : Type} (R : A -> A -> Prop) (n : nat) (l : list A) :
  StronglySorted R l -> StronglySorted R (firstn n l).
Proof.
  intro Hs. revert n. induction Hs as [|x t Ht IH Hall]; intros [|n];
    cbn [firstn]; try constructor.
  - apply IH.
  - rewrite Forall_forall in *. intros y Hy. apply Hall.
    exact (firstn_member _ _ _ Hy).
Qed.

(** The sorted table starts with the first line of the largest rate. *)
Lemma sort_by_rate_head (l : list hourly_row) :
  l <> [] ->
  exists e rest k,
    sort_by_rate l = e :: rest /\ nth_error l k = Some e /\
    forall k' x, nth_error l k' = Some x ->
      rate_ltb (fraud_rate e) (fraud_rate x) = false /\
      ((k' < k)%nat -> rate_ltb (fraud_rate x) (fraud_rate e) = true).
Proof.
  induction l as [|a t IH]; [contradiction|]. intros _.
  cbn [sort_by_rate fold_right]. fold (sort_by_rate t).
  destruct t as [|b t'].
  - exists a, [], 0%nat. split; [reflexivity|]. split; [reflexivity|].
    intros [|k'] x Hx; [|destruct k'; discriminate Hx].
    injection Hx as <-. split; [apply rate_ltb_irrefl | lia].
  - destruct (IH ltac:(discriminate)) as (e & rest & k & Hsort & Hk & Hmax).
    rewrite Hsort. cbn [insert_by_rate].
    destruct (rate_ltb (fraud_rate a) (fraud_rate e)) eqn:E.
    + exists e, (insert_by_rate a rest), (S k).
      split; [reflexivity|]. split; [exact Hk|].
      intros [|k'] x Hx.
      * injection Hx as <-. split; [apply rate_ltb_asym; exact E|].
        intros _. exact E.
      * destruct (Hmax k' x Hx) as [H1 H2]. split; [exact H1|].
        intro Hlt. apply H2. lia.
    + exists a, (e :: rest), 0%nat.
      split; [reflexivity|]. split; [reflexivity|].
      intros [|k'] x Hx.
      * injection Hx as <-. split; [apply rate_ltb_irrefl | lia].
      * destruct (Hmax k' x Hx) as [H1 _].
        split; [exact (rate_ltb_false_trans _ _ _ E H1) | lia].
Qed.

(** X18: where the hourly table is built, the list of peak hours of line
    216 holds the lines of the hourly table with the largest rates, five
    of them or all when the table is shorter, by decreasing rate, and its
    first line is the hour that the executive summary gives as peak hour. *)
Theorem nlargest_starts_at_peak (rows : list txn) (hs : list hourly_row) :
  hourly (hour_column rows) rows = inr hs ->
  length (nlargest 5 hs) = Nat.min 5 (length hs) /\
  (forall e, In e (nlargest 5 hs) -> In e hs) /\
  StronglySorted (fun a b => rate_ltb (fraud_rate a) (fraud_rate b) = false)
    (nlargest 5 hs) /\
  exists e rest, nlargest 5 hs = e :: rest /\ peak_hour hs = inr (hour e).
Proof.
  intro Hhs. unfold nlargest. split; [|split; [|split]].
  - rewrite length_firstn, sort_by_rate_length. reflexivity.
  - intros e He. apply sort_by_rate_In. exact (firstn_member _ _ _ He).
  - apply firstn_sorted. apply sort_by_rate_sorted.
  - destruct (hourly_inv rows hs Hhs) as (c0 & c1 & Hk & Hhours & Hrows).
    assert (Hne : hs <> []).
    { intro E. subst hs. destruct rows as [|r0 rows]; [discriminate Hk|].
      assert (Hin : In (hour_of_day (Time r0))
                       (group_keys id (hour_column (r0 :: rows))))
        by (apply Z_keys_In; left; reflexivity).
      rewrite <- Hhours in Hin. simpl in Hin. exact Hin. }
    assert (Hnum : forall e, In e hs -> exists x, fraud_rate e = Some x).
    { rewrite Forall_forall in Hrows. intros e He.
      destruct (Hrows e He) as (_ & _ & _ & Hr). eexists. exact Hr. }
    destruct (sort_by_rate_head hs Hne) as (e & rest & k & Hsort & Hke & Hmax).
    rewrite Hsort. cbn [firstn]. exists e, (firstn 4 rest).
    split; [reflexivity|].
    destruct (Hnum e (nth_error_In _ _ Hke)) as [xe Hxe].
    assert (H0 : nth_error (map fraud_rate hs) k = Some (Some xe))
      by (rewrite nth_error_map, Hke; cbn; rewrite Hxe; reflexivity).
    destruct (idxmax_defined _ _ _ H0) as [j Hj].
    destruct (idxmax_first_max _ _ Hj) as (m & Hm & Hjmax).
    assert (Hjk : j = k).
    { rewrite nth_error_map in Hm.
      destruct (nth_error hs j) as [ej|] eqn:Ej; [|discriminate Hm].
      cbn in Hm. injection Hm as Hm.
      destruct (Hmax j ej Ej) as [Hge Hbefore].
      destruct (Hjmax k xe H0) as [Hle Hstrict].
      rewrite Hxe, Hm in Hge, Hbefore. cbn in Hge, Hbefore.
      destruct (Nat.lt_trichotomy j k) as [Hlt | [Heq | Hgt]]; [|exact Heq|].
      - specialize (Hbefore Hlt). apply Qltb_lt in Hbefore. lra.
      - specialize (Hstrict Hgt). apply Qltb_ge in Hge. lra. }
    unfold peak_hour. rewrite Hj. cbn [rbind]. unfold loc.
    rewrite Hjk, Hke. reflexivity.
Qed.

Lemma nlargest_starts_at_peak_witness :
  exists hs e rest,
    hourly (hour_column four_transactions) four_transactions = inr hs /\
    nlargest 5 hs = e :: rest /\ peak_hour hs = inr (hour e).
Proof.
  destruct (hourly (hour_column four_transactions) four_transactions)
    as [x | hs] eqn:Hhs.
  { vm_compute in Hhs. discriminate Hhs. }
  destruct (nlargest_starts_at_peak four_transactions hs Hhs)
    as (_ & _ & _ & e & rest & Htop & Hpeak).
  exists hs, e, rest. split; [reflexivity|]. split; [exact Htop | exact Hpeak].
Defined.

(** ** Further properties: the duplicate check *)

Lemma duplicated_from_clean (seen rows : list txn) :
  Forall (fun b => b = false) (duplicated_from seen rows) <->
  (forall b, In b rows -> forall a, In a seen -> txn_eqb b a = false) /\
  ForallOrdPairs (fun a b => txn_eqb b a = false) rows.
Proof.
  revert seen. induction rows as [|r rows IH]; intro seen; cbn [duplicated_from].
  - split; [intros _; split; [intros b [] | constructor] | constructor].
  - split.
    + intro H. inversion H as [|? ? Hr Hrest]; subst.
      apply IH in Hrest. destruct Hrest as [Hseen Hpairs].
      assert (Hrs : forall a, In a seen -> txn_eqb r a = false).
      { intros a Ha. destruct (txn_eqb r a) eqn:E; [|reflexivity].
        assert (Hex : existsb (txn_eqb r) seen = true)
          by (apply existsb_exists; exists a; split; assumption).
        rewrite Hr in Hex. discriminate Hex. }
      split.
      * intros b [<- | Hb] a Ha; [exact (Hrs a Ha)|].
        apply (Hseen b Hb). right. exact Ha.
      * constructor; [|exact Hpairs].
        apply Forall_forall. intros b Hb. apply (Hseen b Hb). left. reflexivity.
    + intros [Hseen Hpairs]. inversion Hpairs as [|? ? Hr Hrest]; subst.
      rewrite Forall_forall in Hr. constructor.
      * destruct (existsb (txn_eqb r) seen) eqn:E; [|reflexivity].
        apply existsb_exists in E. destruct E as [a [Ha E]].
        rewrite (Hseen r (or_introl eq_refl) a Ha) in E. discriminate E.
      * apply IH. split; [|exact Hrest].
        intros b Hb a [<- | Ha]; [exact (Hr b Hb)|].
        apply (Hseen b (or_intror Hb) a Ha).
Qed.

Lemma no_true_marks (marks : list bool) :
  length (filter (fun b => b) marks) = 0%nat <-> Forall (fun b => b = false) marks.
Proof.
  induction marks as [|b marks IH]; cbn [filter].
  - split; [constructor | reflexivity].
  - destruct b; cbn [length].
    + split; [intro H; discriminate H | intro H; inversion H; discriminate].
    + rewrite IH. split; [intro H; constructor; [reflexivity | exact H]
                         | intro H; inversion H; assumption].
Qed.

Lemma duplicated_from_length (seen rows : list txn) :
  length (duplicated_from seen rows) = length rows.
Proof.
  revert seen. induction rows as [|r rows IH]; intro seen; [reflexivity|].
  cbn [duplicated_from length]. rewrite IH. reflexivity.
Qed.

(** X19: the duplicate check counts no line exactly when no line of the
    table equals a line before it; the first line is never counted, so
    the count stays below the number of lines. *)
Theorem dupes_zero_iff (rows : list txn) :
  (dupes rows = 0 <-> ForallOrdPairs (fun a b => txn_eqb b a = false) rows) /\
  0 <= dupes rows <= Z.of_nat (Nat.pred (length rows)).
Proof.
  unfold dupes, duplicated. split.
  - rewrite <- Nat2Z.inj_0, Nat2Z.inj_iff, no_true_marks, duplicated_from_clean.
    split; [intros [_ H]; exact H | intro H; split; [intros b _ a [] | exact H]].
  - split; [lia|]. apply Nat2Z.inj_le.
    destruct rows as [|r rows]; [cbn; lia|].
    cbn [duplicated_from existsb filter length Nat.pred].
    rewrite <- (duplicated_from_length [r] rows). apply filter_length_le.
Qed.
